(** * A shallow embedding of the live trading engine of [mt5.py]

    The development follows the Python source class by class:
    - [MT5LiveDataFeed]: the bounded buffer, the historical preload and the
      two fetch routines with their timestamp watermarks;
    - [LiveTradingStrategy]: [next], [_open_long], [_close_all] and
      [_send_order], written in a small state-and-exception monad over an
      abstract broker.

    Conventions.  Python floats are idealised as exact rationals ([Q]); the
    indicator lines, which the framework fills with NaN before their minimum
    period, are [PyFloat]s and carry the non-finite cases.  Timestamps are
    integer seconds; a [datetime] is identified with its timestamp.  An
    exception keeps every mutation made before it was raised, so a
    computation returns its outcome together with the state it reached. *)

From Stdlib Require Import ZArith QArith Qround Qminmax List Sorted String Bool Lia Lqa.
Import ListNotations.

Local Open Scope Z_scope.

(** ** Python numerics *)

Inductive PyFloat : Type :=
| Fin (q : Q)
| PInf
| NInf
| NaN.

Definition Qlt_bool (x y : Q) : bool := negb (Qle_bool y x).

(** [math.isfinite] *)
Definition math_isfinite (x : PyFloat) : bool :=
  match x with Fin _ => true | _ => false end.

(** [x > 0], [x < 0] and [x <= 0] on floats; every comparison with NaN is
    false. *)
Definition gt0 (x : PyFloat) : bool :=
  match x with Fin q => Qlt_bool 0 q | PInf => true | _ => false end.

Definition lt0 (x : PyFloat) : bool :=
  match x with Fin q => Qlt_bool q 0 | NInf => true | _ => false end.

Definition le0 (x : PyFloat) : bool :=
  match x with Fin q => Qle_bool q 0 | NInf => true | _ => false end.

(** Python exceptions met in the strategy; all are subclasses of
    [Exception].  [BrokerError] stands for whatever a call into the
    terminal library may raise. *)
Inductive Exn : Type :=
| RuntimeError (msg : string)
| AttributeError
| TypeError
| ZeroDivisionError
| BrokerError (code : Z).

Inductive Res (A : Type) : Type :=
| Ok (a : A)
| Raise (e : Exn).
Arguments Ok {A} a.
Arguments Raise {A} e.

(** [x / y] on floats raises on a zero divisor. *)
Definition py_div (x y : Q) : Res Q :=
  if Qeq_bool y 0 then Raise ZeroDivisionError else Ok (x / y)%Q.

(** [min(a, b)] returns [a] unless [b < a]; [max(a, b)] returns [a] unless
    [b > a]. *)
Definition py_min (a b : Q) : Q := if Qlt_bool b a then b else a.
Definition py_max (a b : Q) : Q := if Qlt_bool a b then b else a.

(** [math.floor] *)
Definition math_floor (x : Q) : Z := Qfloor x.

(** [int(x)] truncates toward zero. *)
Definition py_int (x : Q) : Z := Z.quot (Qnum x) (Z.pos (Qden x)).

(** Rounding to the nearest integer, ties to even. *)
Definition round_half_even (x : Q) : Z :=
  let f := Qfloor x in
  match Qcompare (x - inject_Z f) (1 # 2) with
  | Lt => f
  | Gt => f + 1
  | Eq => if Z.even f then f else f + 1
  end.

(** [round(x, ndigits)] *)
Definition py_round (x : Q) (ndigits : Z) : Q :=
  if 0 <=? ndigits
  then (inject_Z (round_half_even (x * inject_Z (10 ^ ndigits))) / inject_Z (10 ^ ndigits))%Q
  else (inject_Z (round_half_even (x / inject_Z (10 ^ (- ndigits)))) * inject_Z (10 ^ (- ndigits)))%Q.

(** ** Terminal data *)

Inductive OrderType : Type := ORDER_TYPE_BUY | ORDER_TYPE_SELL.
Inductive PositionType : Type := POSITION_TYPE_BUY | POSITION_TYPE_SELL.
Inductive TradeAction : Type := TRADE_ACTION_DEAL.
Inductive OrderTime : Type := ORDER_TIME_GTC.
Inductive OrderFilling : Type := ORDER_FILLING_IOC.

Definition TRADE_RETCODE_DONE : Z := 10009.

Record AccountInfo : Type := {
  balance : Q;
  margin_free : Q
}.

Record SymbolInfo : Type := {
  point : Q;
  digits : Z;
  volume_min : Q;
  volume_max : Q;
  volume_step : Q;
  trade_contract_size : Q;
  trade_stops_level : Z
}.

Record Tick : Type := {
  tick_time : Z;
  bid : Q;
  ask : Q
}.

Record TradePosition : Type := {
  pos_type : PositionType;
  pos_volume : Q;
  pos_profit : Q
}.

(** The request dictionary built by [_send_order]; the keys ["sl"] and
    ["tp"] are optional. *)
Record Request : Type := {
  req_action : TradeAction;
  req_symbol : string;
  req_volume : Q;
  req_type : OrderType;
  req_price : Q;
  req_deviation : Z;
  req_magic : Z;
  req_comment : string;
  req_type_time : OrderTime;
  req_type_filling : OrderFilling;
  req_sl : option Q;
  req_tp : option Q
}.

Record OrderSendResult : Type := {
  retcode : Z;
  res_price : Q;
  res_comment : string
}.

(** ** The data feed *)

Module Feed.

(** One row of [copy_rates_range] / [copy_rates_from_pos]. *)
Record Rate : Type := {
  time : Z;
  open : Q;
  high : Q;
  low : Q;
  close : Q;
  tick_volume : Q
}.

(** The dictionary appended to the buffer. *)
Record Bar : Type := {
  bar_datetime : Z;
  bar_open : Q;
  bar_high : Q;
  bar_low : Q;
  bar_close : Q;
  bar_volume : Q;
  bar_openinterest : Z
}.

Record Params : Type := {
  historical_days : Z;
  tick_mode : bool
}.

Record State : Type := {
  _data_queue : list Bar;
  _last_tick_time : Z;
  _last_bar_time : Z;
  _data_ready : bool
}.

Definition maxlen : Z := 10000.

(** [deque(maxlen=10000).append]: a full deque drops its oldest item. *)
Definition append (q : list Bar) (b : Bar) : list Bar :=
  if Z.of_nat (List.length q) <? maxlen then q ++ [b] else tl q ++ [b].

(** The [n] newest items of a buffer content. *)
Definition newest (n : nat) (l : list Bar) : list Bar :=
  skipn (List.length l - n) l.

Definition bar_of_rate (r : Rate) : Bar :=
  {| bar_datetime := time r;
     bar_open := open r; bar_high := high r;
     bar_low := low r; bar_close := close r;
     bar_volume := tick_volume r; bar_openinterest := 0 |}.

(** The buffer content after a preload: nothing when the preload is
    switched off or the terminal has no history, else the newest
    [maxlen] rows. *)
Definition preloaded (p : Params) (hist : option (list Rate)) : list Bar :=
  if historical_days p <=? 0 then []
  else match hist with
       | None => []
       | Some rates => newest (Z.to_nat maxlen) (map bar_of_rate rates)
       end.

Definition bar_of_tick (t : Tick) : Bar :=
  {| bar_datetime := tick_time t;
     bar_open := bid t; bar_high := bid t;
     bar_low := bid t; bar_close := bid t;
     bar_volume := 1; bar_openinterest := 0 |}.

(** [_init_historical_data]; [rates] is the reply of [copy_rates_range]. *)
Definition _init_historical_data (p : Params) (rates : option (list Rate))
    (s : State) : State :=
  if historical_days p <=? 0 then s
  else match rates with
       | None => s
       | Some [] => s
       | Some rates =>
         {| _data_queue := fold_left (fun q r => append q (bar_of_rate r)) rates (_data_queue s);
            _last_tick_time := _last_tick_time s;
            _last_bar_time := _last_bar_time s;
            _data_ready := _data_ready s |}
       end.

(** [__init__]: empty buffer, both watermarks at 0, then the preload. *)
Definition __init__ (p : Params) (rates : option (list Rate)) : State :=
  _init_historical_data p rates
    {| _data_queue := []; _last_tick_time := 0; _last_bar_time := 0;
       _data_ready := false |}.

(** [_fetch_tick_data]; [tick] is the reply of [symbol_info_tick]. *)
Definition _fetch_tick_data (tick : option Tick) (s : State) : State :=
  match tick with
  | None => s
  | Some tick =>
    if tick_time tick <=? _last_tick_time s then s
    else {| _data_queue := append (_data_queue s) (bar_of_tick tick);
            _last_tick_time := tick_time tick;
            _last_bar_time := _last_bar_time s;
            _data_ready := true |}
  end.

(** [_fetch_bar_data]; [rates] is the reply of [copy_rates_from_pos],
    [None] or a sequence of rows of which [rates[-1]] is the newest. *)
Definition _fetch_bar_data (rates : option (list Rate)) (s : State) : State :=
  match rates with
  | None => s
  | Some rates =>
    match rev rates with
    | [] => s
    | latest :: _ =>
      if time latest <=? _last_bar_time s then s
      else {| _data_queue := append (_data_queue s) (bar_of_rate latest);
              _last_tick_time := _last_tick_time s;
              _last_bar_time := time latest;
              _data_ready := true |}
    end
  end.

(** *** The data thread and the consumer *)

(** What the terminal would answer at one pass of the loop of
    [_data_thread]: to [symbol_info_tick] and to [copy_rates_from_pos].
    The pass asks one of the two, by [tick_mode]. *)
Record Poll : Type := {
  poll_tick : option Tick;
  poll_rates : option (list Rate)
}.

(** The body of the loop of [_data_thread], without the sleep. *)
Definition poll (p : Params) (q : Poll) (s : State) : State :=
  if tick_mode p then _fetch_tick_data (poll_tick q) s
  else _fetch_bar_data (poll_rates q) s.

(** [_data_thread]: one pass per element of [polls], after which the
    loop finds the stop event set. *)
Definition _data_thread (p : Params) (polls : list Poll) (s : State) : State :=
  fold_left (fun s q => poll p q s) polls s.

(** The outcome of [_load]: [True] with the lines set from a bar, or
    [None]; [Unfinished] when the recursion outlasts the fuel. *)
Inductive Loaded : Type :=
| Delivered (bar : Bar)
| NoData
| Unfinished.

(** [self._data_ready.clear()] *)
Definition clear_ready (s : State) : State :=
  {| _data_queue := _data_queue s;
     _last_tick_time := _last_tick_time s;
     _last_bar_time := _last_bar_time s;
     _data_ready := false |}.

(** [_load].  A buffered bar is popped from the left and returned.  On an
    empty buffer the consumer waits on [_data_ready]; the head of [waits]
    are the passes the data thread completes meanwhile.  If the event is
    set by then, it is cleared and [_load] starts over; if not, the wait
    times out and [_load] returns [None]. *)
Fixpoint _load (p : Params) (fuel : nat) (waits : list (list Poll)) (s : State)
  : Loaded * State :=
  match _data_queue s with
  | bar :: rest =>
    (Delivered bar,
     {| _data_queue := rest;
        _last_tick_time := _last_tick_time s;
        _last_bar_time := _last_bar_time s;
        _data_ready := _data_ready s |})
  | [] =>
    match fuel with
    | O => (Unfinished, s)
    | S fuel =>
      let s := _data_thread p (hd [] waits) s in
      if _data_ready s then _load p fuel (tl waits) (clear_ready s)
      else (NoData, s)
    end
  end.

(** What happens to a feed, seen from outside: the data thread makes a
    pass, or the consumer calls [_load]. *)
Inductive Op : Type :=
| Produce (q : Poll)
| Consume (fuel : nat) (waits : list (list Poll)).

(** A feed after a sequence of passes and loads, with the bars delivered
    so far, oldest first. *)
Fixpoint session (p : Params) (ops : list Op) (delivered : list Bar) (s : State)
  : list Bar * State :=
  match ops with
  | [] => (delivered, s)
  | Produce q :: ops => session p ops delivered (poll p q s)
  | Consume fuel waits :: ops =>
    match _load p fuel waits s with
    | (Delivered bar, s) => session p ops (delivered ++ [bar]) s
    | (_, s) => session p ops delivered s
    end
  end.

(** The watermark the passes of a feed compare with. *)
Definition watermark (p : Params) (s : State) : Z :=
  if tick_mode p then _last_tick_time s else _last_bar_time s.

(** The buffer holds no more than its capacity. *)
Definition within_capacity (s : State) : Prop :=
  (List.length (_data_queue s) <= Z.to_nat maxlen)%nat.

(** The timestamps of the bars delivered so far and of those still
    buffered, oldest first. *)
Definition timestamps (delivered : list Bar) (s : State) : list Z :=
  map bar_datetime (delivered ++ _data_queue s).

(** The bars are in order: their timestamps increase strictly, are
    positive and do not pass the watermark. *)
Definition in_order (p : Params) (delivered : list Bar) (s : State) : Prop :=
  StronglySorted Z.lt (timestamps delivered s) /\
  Forall (fun t => 0 < t <= watermark p s) (timestamps delivered s) /\
  0 <= watermark p s.

(** [s'] is no earlier than [s]: neither watermark has gone back, and
    the watermark of the other mode is where it was. *)
Definition ahead (p : Params) (s s' : State) : Prop :=
  _last_tick_time s <= _last_tick_time s' /\
  _last_bar_time s <= _last_bar_time s' /\
  if tick_mode p then _last_bar_time s' = _last_bar_time s
  else _last_tick_time s' = _last_tick_time s.

(** *** Scenario inputs *)

Definition two_weeks : Params := {| historical_days := 15; tick_mode := false |}.

Definition bar_1140 : Rate :=
  {| time := 1140; open := 2000; high := 2002; low := 1999; close := 2001;
     tick_volume := 37 |}.

Definition bar_1200 : Rate :=
  {| time := 1200; open := 2001; high := 2003; low := 2000; close := 2002;
     tick_volume := 12 |}.

(** The feed as [run_live_trading] creates it: ticks, no preload. *)
Definition live : Params := {| historical_days := 0; tick_mode := true |}.

Definition tick_600 : Tick := {| tick_time := 600; bid := 2000; ask := 2001 |}.

Definition tick_615 : Tick := {| tick_time := 615; bid := 2002; ask := 2003 |}.

(** A pass that finds the tick, and a pass that finds nothing. *)
Definition finds (t : Tick) : Poll := {| poll_tick := Some t; poll_rates := None |}.

Definition finds_nothing : Poll := {| poll_tick := None; poll_rates := None |}.

(** The state of a feed that has just started without a preload. *)
Definition fresh : State :=
  {| _data_queue := []; _last_tick_time := 0; _last_bar_time := 0;
     _data_ready := false |}.

End Feed.

(** ** The strategy *)

Module Strategy.

Record Params : Type := {
  fast : Z;
  slow : Z;
  risk_pct : Q;
  atr_period : Z;
  stop_atr_mult : Q;
  take_profit_mult : Q;
  symbol : string;
  lot_min : Q;
  lot_max : Q;
  max_positions : Z
}.

(** The attributes [next] and its helpers assign. *)
Record State : Type := {
  position_count : Z;
  last_signal_minute : option Z
}.

(** What one call of [next] reads from the data and indicator lines at
    index 0. *)
Record Lines : Type := {
  datetime : Z;
  close : Q;
  len_sma_slow : Z;
  crossover : PyFloat;
  atr : PyFloat
}.

(** [now.replace(second=0, microsecond=0)] *)
Definition minute_of (now : Z) : Z := 60 * (now / 60).

Inductive Call : Type :=
| account_info_call
| symbol_info_call (sym : string)
| symbol_info_tick_call (sym : string)
| order_calc_margin_call (typ : OrderType) (sym : string) (volume price : Q)
| positions_get_call (sym : string).

(** The lines [self.log] prints, one constructor per format string. *)
Inductive LogMsg : Type :=
| Cannot_fetch_account_info
| Open_long (lot price : Q) (sl_pts : Z) (tp_pts : Q)
| Open_failed (comment : string)
| Open_error (e : Exn)
| Closed (reason : string) (profit : Q)
| Close_failed (comment : string)
| Order_error (e : Exn).

(** What a cycle does that can be seen from outside: a query to the
    terminal, an order handed to [order_send] together with the
    terminal's answer, a printed line. *)
Inductive Event : Type :=
| EvCall (c : Call)
| EvOrder (req : Request) (reply : Res (option OrderSendResult))
| EvLog (m : LogMsg).

(** The terminal library as the strategy uses it: every function may
    return a value, return [None], or raise, and may change the state
    [W] of the terminal. *)
Record Broker (W : Type) : Type := {
  account_info : W -> Res (option AccountInfo) * W;
  symbol_info : string -> W -> Res (option SymbolInfo) * W;
  symbol_info_tick : string -> W -> Res (option Tick) * W;
  order_calc_margin : OrderType -> string -> Q -> Q -> W -> Res (option Q) * W;
  order_send : Request -> W -> Res (option OrderSendResult) * W;
  positions_get : string -> W -> Res (option (list TradePosition)) * W
}.
Arguments account_info {W}.
Arguments symbol_info {W}.
Arguments symbol_info_tick {W}.
Arguments order_calc_margin {W}.
Arguments order_send {W}.
Arguments positions_get {W}.

(** The strategy object, the terminal, and what has been printed and
    asked of the terminal so far. *)
Record Sys (W : Type) : Type := {
  self : State;
  world : W;
  trace : list Event
}.
Arguments self {W}.
Arguments world {W}.
Arguments trace {W}.

(** The request dictionary of [_send_order]: [price] is the ask for a
    buy and the bid for a sell; ["sl"] and ["tp"] are set only for
    truthy [sl_points] and [tp_points]. *)
Definition build_request (sym : string) (lot : Q) (typ : OrderType)
    (sl_points : option Z) (tp_points : option Q) (comment : string)
    (tick : Tick) (info : SymbolInfo) : Request :=
  let price :=
    match typ with ORDER_TYPE_BUY => ask tick | ORDER_TYPE_SELL => bid tick end in
  {| req_action := TRADE_ACTION_DEAL; req_symbol := sym;
     req_volume := lot; req_type := typ;
     req_price := py_round price (digits info);
     req_deviation := 20; req_magic := 20250620;
     req_comment := comment;
     req_type_time := ORDER_TIME_GTC;
     req_type_filling := ORDER_FILLING_IOC;
     req_sl :=
       match sl_points with
       | None => None
       | Some n =>
         if n =? 0 then None
         else Some (match typ with
                    | ORDER_TYPE_BUY =>
                      py_round (price - inject_Z n * point info) (digits info)
                    | ORDER_TYPE_SELL =>
                      py_round (price + inject_Z n * point info) (digits info)
                    end)
       end;
     req_tp :=
       match tp_points with
       | None => None
       | Some t =>
         if Qeq_bool t 0 then None
         else Some (match typ with
                    | ORDER_TYPE_BUY =>
                      py_round (price + t * point info) (digits info)
                    | ORDER_TYPE_SELL =>
                      py_round (price - t * point info) (digits info)
                    end)
       end |}.

(** The opposing side of a position. *)
Definition opposing (t : PositionType) : OrderType :=
  match t with
  | POSITION_TYPE_BUY => ORDER_TYPE_SELL
  | POSITION_TYPE_SELL => ORDER_TYPE_BUY
  end.

Section Engine.

Context {W : Type}.
Variable mt5 : Broker W.
Variable p : Params.

Definition M (A : Type) : Type := Sys W -> Res A * Sys W.

Definition ret {A : Type} (a : A) : M A := fun s => (Ok a, s).

Definition raise {A : Type} (e : Exn) : M A := fun s => (Raise e, s).

Definition lift {A : Type} (r : Res A) : M A := fun s => (r, s).

Definition bind {A B : Type} (m : M A) (k : A -> M B) : M B :=
  fun s =>
    match m s with
    | (Ok a, s') => k a s'
    | (Raise e, s') => (Raise e, s')
    end.

(** [try: body except Exception as e: handler e] *)
Definition try_except {A : Type} (body : M A) (handler : Exn -> M A) : M A :=
  fun s =>
    match body s with
    | (Ok a, s') => (Ok a, s')
    | (Raise e, s') => handler e s'
    end.

Notation "x <- c1 ;; c2" := (bind c1 (fun x => c2))
  (at level 61, c1 at next level, right associativity).
Notation "c1 ;; c2" := (bind c1 (fun _ => c2))
  (at level 61, right associativity).

Definition get_self : M State := fun s => (Ok (self s), s).

Definition set_position_count (n : Z) : M unit :=
  fun s =>
    (Ok tt, {| self := {| position_count := n;
                          last_signal_minute := last_signal_minute (self s) |};
               world := world s; trace := trace s |}).

Definition set_last_signal_minute (m : Z) : M unit :=
  fun s =>
    (Ok tt, {| self := {| position_count := position_count (self s);
                          last_signal_minute := Some m |};
               world := world s; trace := trace s |}).

Definition log (m : LogMsg) : M unit :=
  fun s =>
    (Ok tt, {| self := self s; world := world s;
               trace := trace s ++ [EvLog m] |}).

(** A call into the terminal: the call is recorded, the terminal moves
    on, and the reply or the exception comes back. *)
Definition call {A : Type} (c : Call) (f : W -> Res A * W) : M A :=
  fun s =>
    let (r, w) := f (world s) in
    (r, {| self := self s; world := w; trace := trace s ++ [EvCall c] |}).

Definition mt5_account_info : M (option AccountInfo) :=
  call account_info_call (account_info mt5).

Definition mt5_symbol_info (sym : string) : M (option SymbolInfo) :=
  call (symbol_info_call sym) (symbol_info mt5 sym).

Definition mt5_symbol_info_tick (sym : string) : M (option Tick) :=
  call (symbol_info_tick_call sym) (symbol_info_tick mt5 sym).

Definition mt5_order_calc_margin (typ : OrderType) (sym : string)
    (volume price : Q) : M (option Q) :=
  call (order_calc_margin_call typ sym volume price)
       (order_calc_margin mt5 typ sym volume price).

Definition mt5_order_send (req : Request) : M (option OrderSendResult) :=
  fun s =>
    let (r, w) := order_send mt5 req (world s) in
    (r, {| self := self s; world := w; trace := trace s ++ [EvOrder req r] |}).

Definition mt5_positions_get (sym : string) : M (option (list TradePosition)) :=
  call (positions_get_call sym) (positions_get mt5 sym).

(** [_send_order]: the whole body sits in [try ... except Exception],
    whose handler logs and returns [None].  With no symbol info the
    read of [info.digits] raises. *)
Definition _send_order (sym : string) (lot : Q) (typ : OrderType)
    (sl_points : option Z) (tp_points : option Q) (now : option Z)
    (comment : string) : M (option OrderSendResult) :=
  try_except
    (tick <- mt5_symbol_info_tick sym ;;
     match tick with
     | None => raise (RuntimeError "No tick data")
     | Some tick =>
       info <- mt5_symbol_info sym ;;
       match info with
       | None => raise AttributeError
       | Some info =>
         mt5_order_send
           (build_request sym lot typ sl_points tp_points comment tick info)
       end
     end)
    (fun e => log (Order_error e) ;; ret None).

(** *** Position sizing, the stages of [_open_long] in source order *)

(** [stop_dist], [risk_amt] and the volume that risks [risk_amt] over
    the stop distance. *)
Definition risk_lot (a balance : Q) (sym_info : SymbolInfo) : Res Q :=
  let stop_dist := (a * stop_atr_mult p)%Q in
  let risk_amt := (balance * risk_pct p)%Q in
  py_div risk_amt (stop_dist * trade_contract_size sym_info).

(** [if margin_per_lot > 0: lot = min(lot, free / margin_per_lot)],
    with [free] read from a fresh [account_info()]. *)
Definition margin_cap (lot : Q) (margin_per_lot : option Q) : M Q :=
  match margin_per_lot with
  | None => raise TypeError
  | Some m =>
    if Qlt_bool 0 m then
      info <- mt5_account_info ;;
      match info with
      | None => raise AttributeError
      | Some info =>
        q <- lift (py_div (margin_free info) m) ;;
        ret (py_min lot q)
      end
    else ret lot
  end.

(** Clamp to [[volume_min, volume_max]], floor to the step, round to
    two decimals. *)
Definition step_lot (sym_info : SymbolInfo) (lot : Q) : Res Q :=
  let step := volume_step sym_info in
  let vmin := volume_min sym_info in
  let vmax := volume_max sym_info in
  let lot := py_max vmin (py_min lot vmax) in
  match py_div lot step with
  | Raise e => Raise e
  | Ok k => Ok (py_round (inject_Z (math_floor k) * step) 2)
  end.

(** [sl_pts = max(int(stop_dist / point), trade_stops_level + 5)] *)
Definition stop_points (a : Q) (sym_info : SymbolInfo) : Res Z :=
  let stop_dist := (a * stop_atr_mult p)%Q in
  match py_div stop_dist (point sym_info) with
  | Raise e => Raise e
  | Ok r => Ok (Z.max (py_int r) (trade_stops_level sym_info + 5))
  end.

(** [tp_pts = sl_pts * take_profit_mult] *)
Definition take_profit_points (sl_pts : Z) : Q :=
  (inject_Z sl_pts * take_profit_mult p)%Q.

(** The submission that ends the [try] block of [_open_long]. *)
Definition open_long_submit (lot : Q) (sl_pts : Z) (tp_pts : Q) (now : Z) : M unit :=
  res <- _send_order (symbol p) lot ORDER_TYPE_BUY (Some sl_pts) (Some tp_pts)
                     (Some now) "" ;;
  match res with
  | None => raise AttributeError
  | Some res =>
    if retcode res =? TRADE_RETCODE_DONE then
      s <- get_self ;;
      set_position_count (position_count s + 1) ;;
      log (Open_long lot (res_price res) sl_pts tp_pts)
    else log (Open_failed (res_comment res))
  end.

Definition _open_long (d : Lines) (price balance : Q) (now : Z) : M unit :=
  if negb (math_isfinite (atr d)) || le0 (atr d) then ret tt
  else
    match atr d with
    | Fin a =>
      try_except
        (sym_info <- mt5_symbol_info (symbol p) ;;
         match sym_info with
         | None => raise (RuntimeError "No symbol info")
         | Some sym_info =>
           tick <- mt5_symbol_info_tick (symbol p) ;;
           match tick with
           | None => ret tt
           | Some tick =>
             let exec_price := ask tick in
             margin_per_lot <-
               mt5_order_calc_margin ORDER_TYPE_BUY (symbol p) 1 exec_price ;;
             lot <- lift (risk_lot a balance sym_info) ;;
             lot <- margin_cap lot margin_per_lot ;;
             lot <- lift (step_lot sym_info lot) ;;
             sl_pts <- lift (stop_points a sym_info) ;;
             let tp_pts := take_profit_points sl_pts in
             open_long_submit lot sl_pts tp_pts now
           end
         end)
        (fun e => log (Open_error e))
    | _ => ret tt
    end.

(** The body of [for p in pos] in [_close_all]. *)
Fixpoint close_positions (reason : string) (pos : list TradePosition) : M unit :=
  match pos with
  | [] => ret tt
  | q :: pos =>
    let typ := opposing (pos_type q) in
    res <- _send_order (symbol p) (pos_volume q) typ None None None reason ;;
    match res with
    | None => raise AttributeError
    | Some res =>
      (if retcode res =? TRADE_RETCODE_DONE then
         s <- get_self ;;
         set_position_count (Z.max 0 (position_count s - 1)) ;;
         log (Closed reason (pos_profit q))
       else log (Close_failed (res_comment res))) ;;
      close_positions reason pos
    end
  end.

Definition _close_all (reason : string) : M unit :=
  pos <- mt5_positions_get (symbol p) ;;
  match pos with
  | None => ret tt
  | Some [] => ret tt
  | Some pos => close_positions reason pos
  end.

(** [minute == self.last_signal_minute], the latter [None] at start. *)
Definition same_minute (minute : Z) (last : option Z) : bool :=
  match last with
  | Some m => minute =? m
  | None => false
  end.

Definition next (d : Lines) : M unit :=
  let now := datetime d in
  let price := close d in
  let minute := minute_of now in
  s <- get_self ;;
  if same_minute minute (last_signal_minute s) then ret tt
  else if len_sma_slow d <? slow p then ret tt
  else
    info <- mt5_account_info ;;
    match info with
    | None => log Cannot_fetch_account_info
    | Some info =>
      let bal := balance info in
      s <- get_self ;;
      if gt0 (crossover d) && (position_count s <? max_positions p) then
        _open_long d price bal now ;;
        set_last_signal_minute minute
      else if lt0 (crossover d) then
        _close_all "DeathCross" ;;
        set_last_signal_minute minute
      else ret tt
    end.

(** The decision loop of [cerebro.run()]: one [next] per delivered
    item.  An exception that leaves [next] ends the loop; it is caught
    only in [run_live_trading], which then stops the feed and exits. *)
Fixpoint run (ds : list Lines) : M unit :=
  match ds with
  | [] => ret tt
  | d :: ds => next d ;; run ds
  end.

(** *** What the statements say of a run of [_open_long] and of a cycle *)

(** The volume that enters the clamp, given the reply [m] of
    [order_calc_margin] and the terminal state [w] after it: the risk
    volume [raw] itself when [m] is not positive, else the smaller of
    [raw] and free margin over [m], the free margin read from the
    account at [w]. *)
Inductive capped (w : W) (raw m : Q) : Q -> Prop :=
| capped_by_risk :
    Qlt_bool 0 m = false -> capped w raw m raw
| capped_by_margin (info : AccountInfo) (w' : W) :
    Qlt_bool 0 m = true ->
    account_info mt5 w = (Ok (Some info), w') ->
    capped w raw m (py_min raw (margin_free info / m)).

(** How an order of [_open_long] with volume [lot] and stop [sl_pts]
    comes about from ATR [a], balance [bal], the symbol info [si] and
    the terminal state [w1] after the symbol query. *)
Definition sized (a bal : Q) (si : SymbolInfo) (w1 : W) (lot : Q) (sl_pts : Z) : Prop :=
  exists (tick : Tick) (w2 : W) (m : Q) (w3 : W) (raw cap : Q),
    symbol_info_tick mt5 (symbol p) w1 = (Ok (Some tick), w2) /\
    order_calc_margin mt5 ORDER_TYPE_BUY (symbol p) 1 (ask tick) w2
    = (Ok (Some m), w3) /\
    risk_lot a bal si = Ok raw /\
    capped w3 raw m cap /\
    step_lot si cap = Ok lot /\
    stop_points a si = Ok sl_pts.

(** A cycle that reaches a decision: its minute has not been acted
    on, the slow average is warmed up, the account answers, and the
    cross-over asks to open (with room for a position) or to close. *)
Definition decides (d : Lines) (s : Sys W) : Prop :=
  same_minute (minute_of (datetime d)) (last_signal_minute (self s)) = false /\
  (len_sma_slow d <? slow p) = false /\
  (exists info w, account_info mt5 (world s) = (Ok (Some info), w)) /\
  (gt0 (crossover d) && (position_count (self s) <? max_positions p)
   || lt0 (crossover d)) = true.

End Engine.

(** *** What the statements observe in a trace *)

(** The requests handed to [order_send], oldest first. *)
Fixpoint submitted (t : list Event) : list Request :=
  match t with
  | [] => []
  | EvOrder req _ :: t => req :: submitted t
  | _ :: t => submitted t
  end.

(** [res.retcode == mt5.TRADE_RETCODE_DONE] on an answer of the terminal. *)
Definition done (reply : Res (option OrderSendResult)) : bool :=
  match reply with
  | Ok (Some res) => retcode res =? TRADE_RETCODE_DONE
  | _ => false
  end.

(** How many of the orders in a trace the terminal confirmed as done. *)
Fixpoint confirmed (t : list Event) : Z :=
  match t with
  | [] => 0
  | EvOrder _ reply :: t => (if done reply then 1 else 0) + confirmed t
  | _ :: t => confirmed t
  end.

(** The traces one call of [_send_order] can leave, with the value it
    returns: no quote (the call raised or returned [None]), no symbol
    info, an [order_send] that raised, an [order_send] that answered. *)
Inductive sent (sym : string) (lot : Q) (typ : OrderType)
    (sl_points : option Z) (tp_points : option Q) (comment : string)
  : option OrderSendResult -> list Event -> Prop :=
| sent_no_tick (e : Exn) :
    sent sym lot typ sl_points tp_points comment None
      [EvCall (symbol_info_tick_call sym); EvLog (Order_error e)]
| sent_no_info (e : Exn) :
    sent sym lot typ sl_points tp_points comment None
      [EvCall (symbol_info_tick_call sym); EvCall (symbol_info_call sym);
       EvLog (Order_error e)]
| sent_raised (tick : Tick) (info : SymbolInfo) (e : Exn) :
    sent sym lot typ sl_points tp_points comment None
      [EvCall (symbol_info_tick_call sym); EvCall (symbol_info_call sym);
       EvOrder (build_request sym lot typ sl_points tp_points comment tick info)
               (Raise e);
       EvLog (Order_error e)]
| sent_answered (tick : Tick) (info : SymbolInfo) (res : option OrderSendResult) :
    sent sym lot typ sl_points tp_points comment res
      [EvCall (symbol_info_tick_call sym); EvCall (symbol_info_call sym);
       EvOrder (build_request sym lot typ sl_points tp_points comment tick info)
               (Ok res)].

(** [req] is the market order that closes position [q]: the opposing
    side, the position's volume, no stop and no target. *)
Definition closing (sym reason : string) (q : TradePosition) (req : Request) : Prop :=
  exists tick info,
    req = build_request sym (pos_volume q) (opposing (pos_type q)) None None
            reason tick info.

(** The counter after [k] confirmed closes, each taking one off and
    stopping at 0. *)
Definition settle (k c : Z) : Z := if k =? 0 then c else Z.max 0 (c - k).

(** [req] is an order of [_open_long]: a market buy with a stop and a
    target given in points, and no comment. *)
Definition opening (sym : string) (req : Request) : Prop :=
  exists lot sl_pts tp_pts tick info,
    req = build_request sym lot ORDER_TYPE_BUY (Some sl_pts) (Some tp_pts) ""
            tick info.

(** What [_open_long] adds to the trace, with the counter before and
    after: at most one order, an opening order on the symbol, counted
    once if confirmed. *)
Definition opened (sym : string) (c0 c : Z) (t : list Event) : Prop :=
  c = c0 + confirmed t /\
  (List.length (submitted t) <= 1)%nat /\
  Forall (opening sym) (submitted t).

(** An order of the strategy: on its symbol, and an opening order or
    the closing order of a death cross. *)
Definition own_order (sym : string) (req : Request) : Prop :=
  req_symbol req = sym /\
  (opening sym req \/ exists q, closing sym "DeathCross" q req).

(** Items arrive in the order of their timestamps. *)
Definition chronological (ds : list Lines) : Prop :=
  Sorted (fun a b => datetime a <= datetime b) ds.

(** *** A terminal for the scenarios

    It gives the same answer to every call of a function and has no
    state of its own. *)
Definition steady
    (acc : Res (option AccountInfo)) (si : Res (option SymbolInfo))
    (tk : Res (option Tick)) (margin : Res (option Q))
    (send : Request -> Res (option OrderSendResult))
    (pos : Res (option (list TradePosition))) : Broker unit :=
  {| account_info := fun w => (acc, w);
     symbol_info := fun _ w => (si, w);
     symbol_info_tick := fun _ w => (tk, w);
     order_calc_margin := fun _ _ _ _ w => (margin, w);
     order_send := fun req w => (send req, w);
     positions_get := fun _ w => (pos, w) |}.

(** The terminal fills every order at the requested price. *)
Definition filled (req : Request) : Res (option OrderSendResult) :=
  Ok (Some {| retcode := TRADE_RETCODE_DONE; res_price := req_price req;
              res_comment := "Request executed" |}).

(** The class defaults of [params]. *)
Definition defaults : Params :=
  {| fast := 20; slow := 50; risk_pct := 2 # 100; atr_period := 14;
     stop_atr_mult := 2; take_profit_mult := 3; symbol := "XAUUSD";
     lot_min := 1 # 100; lot_max := 10; max_positions := 1 |}.

(** A gold contract: point 0.01, two digits, lots from 0.01 to 10 in
    steps of 0.01, 100 ounces a lot. *)
Definition xauusd : SymbolInfo :=
  {| point := 1 # 100; digits := 2; volume_min := 1 # 100; volume_max := 10;
     volume_step := 1 # 100; trade_contract_size := 100;
     trade_stops_level := 0 |}.

(** The strategy as [__init__] leaves it. *)
Definition start : Sys unit :=
  {| self := {| position_count := 0; last_signal_minute := None |};
     world := tt; trace := [] |}.

(** One position open, opened in the minute starting at 600. *)
Definition holding : Sys unit :=
  {| self := {| position_count := 1; last_signal_minute := Some 600 |};
     world := tt; trace := [] |}.

Definition account : AccountInfo := {| balance := 10000; margin_free := 5000 |}.

Definition quote : Tick := {| tick_time := 600; bid := 2000; ask := 2001 |}.

Definition long_half : TradePosition :=
  {| pos_type := POSITION_TYPE_BUY; pos_volume := 1 # 2; pos_profit := 12 |}.

(** The fast average above the slow one, ATR 2.0. *)
Definition golden_cross : Lines :=
  {| datetime := 600; close := 2000; len_sma_slow := 60;
     crossover := Fin 1; atr := Fin 2 |}.

(** The fast average below the slow one, a minute later. *)
Definition death_cross : Lines :=
  {| datetime := 660; close := 1990; len_sma_slow := 61;
     crossover := Fin (-1); atr := Fin 2 |}.

(** The answer to an order the terminal turns down. *)
Definition rejected (req : Request) : Res (option OrderSendResult) :=
  Ok (Some {| retcode := 10006; res_price := 0; res_comment := "Request rejected" |}).

(** A terminal in good order: it quotes, knows the symbol, asks 200 of
    margin a lot and fills what it is sent; [pos] are the positions it
    reports. *)
Definition healthy (acc : AccountInfo) (si : SymbolInfo)
    (pos : list TradePosition) : Broker unit :=
  steady (Ok (Some acc)) (Ok (Some si)) (Ok (Some quote)) (Ok (Some 200%Q))
         filled (Ok (Some pos)).

(** The terminal cannot send: [order_send] raises. *)
Definition send_raises : Broker unit :=
  steady (Ok (Some account)) (Ok (Some xauusd)) (Ok (Some quote)) (Ok (Some 200%Q))
         (fun _ => Raise (BrokerError 10)) (Ok (Some [long_half])).

(** The terminal has no quote for the symbol. *)
Definition no_quote : Broker unit :=
  steady (Ok (Some account)) (Ok (Some xauusd)) (Ok None) (Ok (Some 200%Q))
         filled (Ok (Some [long_half])).

(** The terminal raises when asked for the positions. *)
Definition positions_raise : Broker unit :=
  steady (Ok (Some account)) (Ok (Some xauusd)) (Ok (Some quote)) (Ok (Some 200%Q))
         filled (Raise (BrokerError 10)).

(** The terminal turns every order down. *)
Definition turns_down (pos : list TradePosition) : Broker unit :=
  steady (Ok (Some account)) (Ok (Some xauusd)) (Ok (Some quote)) (Ok (Some 200%Q))
         rejected (Ok (Some pos)).

(** A symbol traded in thousandths of a lot. *)
Definition fine_lots : SymbolInfo :=
  {| point := 1 # 100; digits := 2; volume_min := 1 # 1000; volume_max := 10;
     volume_step := 1 # 1000; trade_contract_size := 100;
     trade_stops_level := 0 |}.

Definition small_account : AccountInfo := {| balance := 100; margin_free := 5000 |}.

(** Only 50 of free margin. *)
Definition tight_account : AccountInfo := {| balance := 10000; margin_free := 50 |}.

(** A golden cross with ATR 5.0. *)
Definition wide_cross : Lines :=
  {| datetime := 600; close := 2000; len_sma_slow := 60;
     crossover := Fin 1; atr := Fin 5 |}.


(** A golden cross with ATR 0. *)
Definition flat_cross : Lines :=
  {| datetime := 600; close := 2000; len_sma_slow := 60;
     crossover := Fin 1; atr := Fin 0 |}.

(** A death cross while the ATR line is still NaN. *)
Definition blind_death_cross : Lines :=
  {| datetime := 660; close := 1990; len_sma_slow := 61;
     crossover := Fin (-1); atr := NaN |}.



(** Two later items of the minute of [golden_cross]: no cross, then a
    death cross. *)
Definition same_minute_quiet : Lines :=
  {| datetime := 615; close := 2000; len_sma_slow := 61;
     crossover := Fin 0; atr := Fin 2 |}.

Definition same_minute_death_cross : Lines :=
  {| datetime := 659; close := 1990; len_sma_slow := 62;
     crossover := Fin (-1); atr := Fin 2 |}.

(** A symbol whose contract size the terminal reports as 0. *)
Definition sizeless : SymbolInfo :=
  {| point := 1 # 100; digits := 2; volume_min := 1 # 100; volume_max := 10;
     volume_step := 1 # 100; trade_contract_size := 0;
     trade_stops_level := 0 |}.

(** The order that closes [long_half] at the bid of [quote]. *)
Definition sell_half : Request :=
  build_request "XAUUSD" (1 # 2) ORDER_TYPE_SELL None None "DeathCross" quote xauusd.

End Strategy.

(** * Properties of the data feed *)

Module FeedFacts.
Import Feed.

(** *** The bounded buffer *)

Lemma newest_all (n : nat) (l : list Bar) :
  (List.length l <= n)%nat -> newest n l = l.
Proof.
  intros H. unfold newest.
  replace (List.length l - n)%nat with 0%nat by lia.
  apply skipn_0.
Qed.

Lemma length_newest (n : nat) (l : list Bar) :
  (List.length (newest n l) <= n)%nat.
Proof. unfold newest. rewrite length_skipn. lia. Qed.

Lemma newest_app_newest (n : nat) (l l2 : list Bar) :
  newest n (newest n l ++ l2) = newest n (l ++ l2).
Proof.
  destruct (Nat.le_gt_cases (List.length l) n) as [Hle | Hgt].
  - now rewrite (newest_all n l Hle).
  - unfold newest.
    rewrite !length_app, length_skipn.
    set (k := (List.length l - n)%nat).
    replace (List.length l - k + List.length l2 - n)%nat
      with (List.length l2) by lia.
    replace (List.length l + List.length l2 - n)%nat
      with (List.length l2 + k)%nat by lia.
    rewrite <- skipn_skipn. f_equal.
    rewrite skipn_app.
    replace (k - List.length l)%nat with 0%nat by lia.
    now rewrite skipn_0.
Qed.

Lemma append_newest (q : list Bar) (b : Bar) :
  (List.length q <= Z.to_nat maxlen)%nat ->
  append q b = newest (Z.to_nat maxlen) (q ++ [b]).
Proof.
  intros H. unfold append.
  destruct (Z.ltb_spec (Z.of_nat (List.length q)) maxlen) as [Hlt | Hge].
  - symmetry. apply newest_all. rewrite length_app. simpl List.length. lia.
  - unfold newest. rewrite length_app. simpl List.length.
    replace (List.length q + 1 - Z.to_nat maxlen)%nat with 1%nat by lia.
    destruct q as [| a q]; [ simpl in Hge; unfold maxlen in Hge; lia | reflexivity ].
Qed.

Lemma length_append (q : list Bar) (b : Bar) :
  (List.length q <= Z.to_nat maxlen)%nat ->
  (List.length (append q b) <= Z.to_nat maxlen)%nat.
Proof.
  intros H. rewrite append_newest by exact H. apply length_newest.
Qed.

(** Appending a batch of rows keeps the newest [maxlen] bars. *)
Lemma preload_fold (rates : list Rate) :
  forall q : list Bar,
    (List.length q <= Z.to_nat maxlen)%nat ->
    fold_left (fun q r => append q (bar_of_rate r)) rates q
    = newest (Z.to_nat maxlen) (q ++ map bar_of_rate rates).
Proof.
  induction rates as [| r rates IH]; intros q Hq; simpl.
  - rewrite app_nil_r. symmetry. now apply newest_all.
  - rewrite IH by now apply length_append.
    rewrite append_newest by exact Hq.
    rewrite newest_app_newest, <- app_assoc. reflexivity.
Qed.

(** *** Preload and fetch *)

Lemma init_state (p : Params) (hist : option (list Rate)) :
  __init__ p hist
  = {| _data_queue := preloaded p hist; _last_tick_time := 0;
       _last_bar_time := 0; _data_ready := false |}.
Proof.
  unfold __init__, _init_historical_data, preloaded.
  destruct (historical_days p <=? 0); [ reflexivity | ].
  destruct hist as [[| r rates] |]; try reflexivity.
  cbn [_data_queue _last_tick_time _last_bar_time _data_ready].
  rewrite preload_fold by (simpl; lia). reflexivity.
Qed.





(** The buffer of the witness: the bar of 1200 sits in it twice, so the
    timestamps handed on are not strictly increasing across the
    preload. *)
Example preload_duplicate :
  map bar_datetime
      (_data_queue (_fetch_bar_data (Some [bar_1140; bar_1200])
                                    (__init__ two_weeks (Some [bar_1140; bar_1200]))))
  = [1140; 1200; 1200].
Proof. reflexivity. Qed.

End FeedFacts.

(** * Properties of the strategy *)

Module StrategyFacts.
Import Strategy.

(** *** Traces, minutes and comparisons *)

Lemma submitted_app (t1 t2 : list Event) :
  submitted (t1 ++ t2) = submitted t1 ++ submitted t2.
Proof.
  induction t1 as [| [c | req r | m] t1 IH]; simpl; try rewrite IH; reflexivity.
Qed.

Lemma confirmed_app (t1 t2 : list Event) :
  confirmed (t1 ++ t2) = confirmed t1 + confirmed t2.
Proof.
  induction t1 as [| [c | req r | m] t1 IH]; simpl; try rewrite IH; lia.
Qed.

Lemma minute_of_mono (a b : Z) : a <= b -> minute_of a <= minute_of b.
Proof.
  intros H. unfold minute_of.
  pose proof (Z.div_le_mono a b 60 ltac:(lia) H). lia.
Qed.

Lemma sorted_before_last (R : Lines -> Lines -> Prop) (l : list Lines) (x : Lines) :
  StronglySorted R (l ++ [x]) -> Forall (fun y => R y x) l.
Proof.
  induction l as [| a l IH]; intros H; [ constructor | ].
  simpl in H. apply StronglySorted_inv in H as [Hs Ha].
  constructor; [ | now apply IH ].
  rewrite Forall_forall in Ha. apply Ha. apply in_or_app. right. now left.
Qed.

(** In a chronological run, whatever lies between two items of one
    minute lies in that minute too. *)
Lemma same_bucket_between (d1 d2 : Lines) (between : list Lines) :
  chronological (d1 :: between ++ [d2]) ->
  minute_of (datetime d1) = minute_of (datetime d2) ->
  Forall (fun d => minute_of (datetime d) = minute_of (datetime d1)) (between ++ [d2]).
Proof.
  intros Hs Hm.
  apply Sorted_StronglySorted in Hs; [ | intros x y z; apply Z.le_trans ].
  apply StronglySorted_inv in Hs as [Hrest Hfirst].
  apply sorted_before_last in Hrest.
  rewrite Forall_forall in *. intros d Hin.
  pose proof (Hfirst d Hin) as Hlo. apply minute_of_mono in Hlo.
  apply in_app_or in Hin as [Hin | [<- | []]]; [ | now symmetry ].
  pose proof (Hrest d Hin) as Hhi. apply minute_of_mono in Hhi. lia.
Qed.

Lemma Qlt_bool_true (x y : Q) : Qlt_bool x y = true -> (x < y)%Q.
Proof.
  unfold Qlt_bool. intros H. apply negb_true_iff in H.
  apply Qnot_le_lt. intros Hle. apply Qle_bool_iff in Hle. congruence.
Qed.

Lemma Qlt_bool_false (x y : Q) : Qlt_bool x y = false -> (y <= x)%Q.
Proof.
  unfold Qlt_bool. intros H. apply negb_false_iff in H.
  now apply Qle_bool_iff.
Qed.


(** *** The clamp/step stage on the grid it was written for *)

Lemma py_min_le_r (a b : Q) : (py_min a b <= b)%Q.
Proof.
  unfold py_min. destruct (Qlt_bool b a) eqn:H.
  - apply Qle_refl.
  - now apply Qlt_bool_false in H.
Qed.

Lemma py_max_bounds (lo hi x : Q) :
  (lo <= hi)%Q -> (x <= hi)%Q -> (lo <= py_max lo x <= hi)%Q.
Proof.
  intros Hlh Hx. unfold py_max. destruct (Qlt_bool lo x) eqn:H.
  - apply Qlt_bool_true in H. split; [ now apply Qlt_le_weak | exact Hx ].
  - split; [ apply Qle_refl | exact Hlh ].
Qed.

Lemma round_half_even_integer (x : Q) (n : Z) :
  (x == inject_Z n)%Q -> round_half_even x = n.
Proof.
  intros H. unfold round_half_even.
  assert (Hf : Qfloor x = n) by (rewrite H; apply Qfloor_Z).
  rewrite Hf.
  assert (Hc : Qcompare (x - inject_Z n) (1 # 2) = Lt).
  { rewrite H. apply Qlt_alt. unfold Qminus. rewrite Qplus_opp_r. reflexivity. }
  now rewrite Hc.
Qed.

(** When the step is a whole number [j] of hundredths of a lot and the
    volume limits are the multiples [lo] and [hi] of the step, the
    clamp/step stage returns a multiple of the step within the limits,
    whatever volume enters it. *)
Lemma step_lot_on_grid (si : SymbolInfo) (x v : Q) (j lo hi : Z) :
  0 < j ->
  (volume_step si == inject_Z j / 100)%Q ->
  (volume_min si == inject_Z lo * volume_step si)%Q ->
  (volume_max si == inject_Z hi * volume_step si)%Q ->
  (volume_min si <= volume_max si)%Q ->
  step_lot si x = Ok v ->
  exists n : Z,
    (v == inject_Z n * volume_step si)%Q /\
    (volume_min si <= v <= volume_max si)%Q.
Proof.
  intros Hj Hstep Hmin Hmax Hle Hrun.
  assert (Hpos : (0 < volume_step si)%Q).
  { rewrite Hstep. apply Qlt_shift_div_l; [ reflexivity | ].
    rewrite Qmult_0_l. unfold Qlt. simpl. lia. }
  unfold step_lot, py_div in Hrun.
  destruct (Qeq_bool (volume_step si) 0) eqn:Hz.
  { apply Qeq_bool_eq in Hz. rewrite Hz in Hpos. discriminate. }
  injection Hrun as <-.
  set (c := py_max (volume_min si) (py_min x (volume_max si))).
  destruct (py_max_bounds (volume_min si) (volume_max si)
              (py_min x (volume_max si)) Hle (py_min_le_r x (volume_max si)))
    as [Hlo Hhi].
  fold c in Hlo, Hhi.
  set (f := math_floor (c / volume_step si)).
  assert (Hflo : lo <= f).
  { unfold f, math_floor. rewrite <- (Qfloor_Z lo). apply Qfloor_resp_le.
    apply Qle_shift_div_l; [ exact Hpos | ]. now rewrite <- Hmin. }
  assert (Hfhi : f <= hi).
  { unfold f, math_floor. rewrite <- (Qfloor_Z hi). apply Qfloor_resp_le.
    apply Qle_shift_div_r; [ exact Hpos | ]. now rewrite <- Hmax. }
  assert (Hround : (py_round (inject_Z f * volume_step si) 2
                    == inject_Z f * volume_step si)%Q).
  { unfold py_round. cbn [Z.leb Z.compare].
    rewrite (round_half_even_integer _ (f * j)).
    - rewrite inject_Z_mult, Hstep. change (inject_Z (10 ^ 2)) with 100%Q. field.
    - rewrite inject_Z_mult, Hstep. change (inject_Z (10 ^ 2)) with 100%Q. field. }
  exists f. split; [ exact Hround | ]. split.
  - apply Qle_trans with (inject_Z f * volume_step si)%Q;
      [ | apply Qle_lteq; right; symmetry; exact Hround ].
    rewrite Hmin. apply Qmult_le_compat_r; [ | now apply Qlt_le_weak ].
    rewrite <- Zle_Qle. exact Hflo.
  - apply Qle_trans with (inject_Z f * volume_step si)%Q;
      [ apply Qle_lteq; right; exact Hround | ].
    rewrite Hmax. apply Qmult_le_compat_r; [ | now apply Qlt_le_weak ].
    rewrite <- Zle_Qle. exact Hfhi.
Qed.

(** The gold contract is on that grid: a step of one hundredth, limits
    of 1 and 1000 steps; a raw volume of 0.5 leaves the stage as 0.50. *)
Example step_lot_xauusd :
  exists v,
    step_lot xauusd (1 # 2) = Ok v /\ (v == 1 # 2)%Q /\
    exists n : Z,
      (v == inject_Z n * volume_step xauusd)%Q /\
      (volume_min xauusd <= v <= volume_max xauusd)%Q.
Proof.
  eexists. split; [ reflexivity | ]. split; [ reflexivity | ].
  apply (step_lot_on_grid xauusd (1 # 2) _ 1 1 1000); try reflexivity.
  discriminate.
Qed.

(** *** The methods, for every terminal *)

Section EngineFacts.

Context {W : Type}.
Variable mt5 : Broker W.
Variable p : Params.

(** [_send_order] never raises and never touches the strategy's own
    attributes; its trace is one of the four of [sent]. *)
Lemma send_order_spec (sym : string) (lot : Q) (typ : OrderType)
    (sl_points : option Z) (tp_points : option Q) (now : option Z)
    (comment : string) (s : Sys W) :
  exists res w t,
    _send_order mt5 sym lot typ sl_points tp_points now comment s
    = (Ok res, {| self := self s; world := w; trace := trace s ++ t |})
    /\ sent sym lot typ sl_points tp_points comment res t.
Proof.
  unfold _send_order, try_except, bind, mt5_symbol_info_tick,
    mt5_symbol_info, mt5_order_send, call, raise, log, ret.
  destruct (symbol_info_tick mt5 sym (world s)) as [[[tick |] | e] w1];
    cbn [self world trace].
  - destruct (symbol_info mt5 sym w1) as [[[info |] | e] w2];
      cbn [self world trace].
    + destruct (order_send mt5 _ w2) as [[res | e] w3];
        cbn [self world trace].
      * exists res, w3. eexists. split; [ | apply (sent_answered _ _ _ _ _ _ tick info) ].
        rewrite <- !app_assoc. reflexivity.
      * exists None, w3. eexists. split; [ | apply (sent_raised _ _ _ _ _ _ tick info e) ].
        rewrite <- !app_assoc. reflexivity.
    + exists None, w2. eexists. split; [ | apply (sent_no_info _ _ _ _ _ _ AttributeError) ].
      rewrite <- !app_assoc. reflexivity.
    + exists None, w2. eexists. split; [ | apply (sent_no_info _ _ _ _ _ _ e) ].
      rewrite <- !app_assoc. reflexivity.
  - exists None, w1. eexists. split; [ | apply (sent_no_tick _ _ _ _ _ _ (RuntimeError "No tick data")) ].
    rewrite <- !app_assoc. reflexivity.
  - exists None, w1. eexists. split; [ | apply (sent_no_tick _ _ _ _ _ _ e) ].
    rewrite <- !app_assoc. reflexivity.
Qed.

(** One call of [_send_order] hands over at most the one request it
    built, and prints nothing but its own error line. *)
Lemma sent_submitted sym lot typ sl tp c res t :
  sent sym lot typ sl tp c res t ->
  forall req, In req (submitted t) ->
    exists tick info, req = build_request sym lot typ sl tp c tick info.
Proof.
  intros H req Hin. destruct H; simpl in Hin; try contradiction;
    destruct Hin as [<- | []]; eauto.
Qed.

Lemma sent_logs sym lot typ sl tp c res t :
  sent sym lot typ sl tp c res t ->
  forall m, In (EvLog m) t -> exists e, m = Order_error e.
Proof.
  intros H m Hin. destruct H; simpl in Hin;
    repeat (destruct Hin as [Hin | Hin]; try discriminate; try contradiction);
    inversion Hin; eauto.
Qed.

(** The submission of [_open_long]: the order carries the volume and
    the points it was given, and so does the line that reports a fill;
    the recorded minute is left alone. *)
Lemma open_long_submit_spec (lot : Q) (sl : Z) (tp : Q) (now : Z) (s : Sys W) :
  exists r c w t,
    open_long_submit mt5 p lot sl tp now s
    = (r, {| self := {| position_count := c;
                        last_signal_minute := last_signal_minute (self s) |};
             world := w; trace := trace s ++ t |})
    /\ (forall req, In req (submitted t) ->
          exists tick info,
            req = build_request (symbol p) lot ORDER_TYPE_BUY (Some sl) (Some tp)
                    "" tick info)
    /\ (forall lot' px sl' tp', In (EvLog (Open_long lot' px sl' tp')) t ->
          lot' = lot /\ sl' = sl /\ tp' = tp).
Proof.
  destruct s as [[c lsm] w tr]. unfold open_long_submit, bind at 1.
  destruct (send_order_spec (symbol p) lot ORDER_TYPE_BUY (Some sl) (Some tp)
              (Some now) "" {| self := {| position_count := c; last_signal_minute := lsm |};
                               world := w; trace := tr |})
    as (res & w' & t & E & Hsent).
  rewrite E. cbn [self world trace position_count last_signal_minute].
  pose proof (sent_submitted _ _ _ _ _ _ _ _ Hsent) as Hsub.
  pose proof (sent_logs _ _ _ _ _ _ _ _ Hsent) as Hlog.
  destruct res as [res |].
  - destruct (retcode res =? TRADE_RETCODE_DONE).
    + exists (Ok tt), (c + 1), w', (t ++ [EvLog (Open_long lot (res_price res) sl tp)]).
      split; [ cbn; now rewrite app_assoc | ].
      split.
      * intros req Hin. rewrite submitted_app in Hin. simpl in Hin.
        rewrite app_nil_r in Hin. auto.
      * intros lot' px sl' tp' Hin. apply in_app_or in Hin as [Hin | Hin].
        -- apply Hlog in Hin as [e He]. discriminate.
        -- destruct Hin as [Hin | []]. inversion Hin. auto.
    + exists (Ok tt), c, w', (t ++ [EvLog (Open_failed (res_comment res))]).
      split; [ cbn; now rewrite app_assoc | ].
      split.
      * intros req Hin. rewrite submitted_app in Hin. simpl in Hin.
        rewrite app_nil_r in Hin. auto.
      * intros lot' px sl' tp' Hin. apply in_app_or in Hin as [Hin | Hin].
        -- apply Hlog in Hin as [e He]. discriminate.
        -- destruct Hin as [Hin | []]. discriminate.
  - exists (Raise AttributeError), c, w', t.
    split; [ reflexivity | ].
    split; [ exact Hsub | ].
    intros lot' px sl' tp' Hin. apply Hlog in Hin as [e He]. discriminate.
Qed.

(** A branch that ends without an order and without a fill line. *)
Ltac quiet_leaf :=
  unfold log, ret, raise;
  cbn [self world trace position_count last_signal_minute];
  do 3 eexists;
  (split; [ rewrite <- ?app_assoc; reflexivity | ]);
  cbn; intuition discriminate.

(** The [try] block of [_open_long] ended with outcome [r] after the
    queries [pre] and the events [t]; the handler adds one line when
    [r] is an exception.  Orders and fill lines are those of [t]. *)
Lemma open_long_handler (P : Q -> Z -> Prop) (r : Res unit) (c : Z)
    (lsm : option Z) (w : W) (tr tr0 pre t : list Event) :
  tr0 = tr ++ pre ->
  submitted pre = [] ->
  (forall lot px sl tp, ~ In (EvLog (Open_long lot px sl tp)) pre) ->
  (forall req, In req (submitted t) ->
     exists lot sl tick info,
       P lot sl /\
       req = build_request (symbol p) lot ORDER_TYPE_BUY (Some sl)
               (Some (take_profit_points p sl)) "" tick info) ->
  (forall lot px sl tp, In (EvLog (Open_long lot px sl tp)) t ->
     P lot sl /\ tp = take_profit_points p sl) ->
  exists c0 w0 t0,
    match r with
    | Ok u =>
      (Ok u, {| self := {| position_count := c; last_signal_minute := lsm |};
                world := w; trace := tr0 ++ t |})
    | Raise e =>
      log (Open_error e)
        {| self := {| position_count := c; last_signal_minute := lsm |};
           world := w; trace := tr0 ++ t |}
    end
    = (Ok tt, {| self := {| position_count := c0; last_signal_minute := lsm |};
                 world := w0; trace := tr ++ t0 |})
    /\ (forall req, In req (submitted t0) ->
          exists lot sl tick info,
            P lot sl /\
            req = build_request (symbol p) lot ORDER_TYPE_BUY (Some sl)
                    (Some (take_profit_points p sl)) "" tick info)
    /\ (forall lot px sl tp, In (EvLog (Open_long lot px sl tp)) t0 ->
          P lot sl /\ tp = take_profit_points p sl).
Proof.
  intros -> Hpre Hprelog Hsub Hlog.
  destruct r as [[] | e].
  - exists c, w, (pre ++ t). split; [ now rewrite app_assoc | ]. split.
    + intros req Hin. rewrite submitted_app, Hpre in Hin. auto.
    + intros lot px sl tp Hin. apply in_app_or in Hin as [Hin | Hin]; [ | eauto ].
      now apply Hprelog in Hin.
  - exists c, w, (pre ++ t ++ [EvLog (Open_error e)]).
    split; [ unfold log; cbn; now rewrite <- !app_assoc | ]. split.
    + intros req Hin. rewrite !submitted_app, Hpre in Hin. simpl in Hin.
      rewrite app_nil_r in Hin. auto.
    + intros lot px sl tp Hin. apply in_app_or in Hin as [Hin | Hin].
      * now apply Hprelog in Hin.
      * apply in_app_or in Hin as [Hin | Hin]; [ eauto | ].
        destruct Hin as [Hin | []]. discriminate.
Qed.

(** The clamp/step stage, the stop points and the submission. *)
Lemma open_long_place_spec (a : Q) (si : SymbolInfo) (cap : Q) (now : Z)
    (s : Sys W) :
  exists r c w t,
    bind (lift (step_lot si cap))
      (fun lot =>
         bind (lift (stop_points p a si))
           (fun sl_pts =>
              open_long_submit mt5 p lot sl_pts (take_profit_points p sl_pts) now)) s
    = (r, {| self := {| position_count := c;
                        last_signal_minute := last_signal_minute (self s) |};
             world := w; trace := trace s ++ t |})
    /\ (forall req, In req (submitted t) ->
          exists lot sl tick info,
            step_lot si cap = Ok lot /\ stop_points p a si = Ok sl /\
            req = build_request (symbol p) lot ORDER_TYPE_BUY (Some sl)
                    (Some (take_profit_points p sl)) "" tick info)
    /\ (forall lot px sl tp, In (EvLog (Open_long lot px sl tp)) t ->
          step_lot si cap = Ok lot /\ stop_points p a si = Ok sl /\
          tp = take_profit_points p sl).
Proof.
  unfold bind at 1, lift at 1.
  destruct (step_lot si cap) as [lot | e] eqn:Hlot.
  - unfold bind at 1, lift at 1.
    destruct (stop_points p a si) as [sl | e] eqn:Hsl.
    + destruct (open_long_submit_spec lot sl (take_profit_points p sl) now s)
        as (r & c & w & t & E & Hsub & Hlog).
      exists r, c, w, t. split; [ exact E | ]. split.
      * intros req Hin. destruct (Hsub req Hin) as (tick & info & ->).
        exists lot, sl, tick, info. auto.
      * intros lot' px sl' tp' Hin.
        destruct (Hlog _ _ _ _ Hin) as (-> & -> & ->). auto.
    + destruct s as [[c lsm] w tr].
      exists (Raise e), c, w, []. rewrite app_nil_r. cbn. intuition.
  - destruct s as [[c lsm] w tr].
    exists (Raise e), c, w, []. rewrite app_nil_r. cbn. intuition.
Qed.

(** [_open_long] once the terminal has answered the symbol query: it
    never raises, and each order and each fill line comes from a
    sizing as [sized] describes it. *)
Lemma open_long_spec (d : Lines) (price bal : Q) (now : Z) (s : Sys W)
    (a : Q) (si : SymbolInfo) (w1 : W) :
  atr d = Fin a ->
  symbol_info mt5 (symbol p) (world s) = (Ok (Some si), w1) ->
  exists c w t,
    _open_long mt5 p d price bal now s
    = (Ok tt, {| self := {| position_count := c;
                            last_signal_minute := last_signal_minute (self s) |};
                 world := w; trace := trace s ++ t |})
    /\ (forall req, In req (submitted t) ->
          exists lot sl tick info,
            sized mt5 p a bal si w1 lot sl /\
            req = build_request (symbol p) lot ORDER_TYPE_BUY (Some sl)
                    (Some (take_profit_points p sl)) "" tick info)
    /\ (forall lot px sl tp, In (EvLog (Open_long lot px sl tp)) t ->
          sized mt5 p a bal si w1 lot sl /\ tp = take_profit_points p sl).
Proof.
  intros Ha Hsi. destruct s as [[c lsm] w tr].
  unfold _open_long. rewrite Ha. cbn [math_isfinite negb orb le0].
  destruct (Qle_bool a 0) eqn:Hle.
  { exists c, w, []. unfold ret. rewrite app_nil_r. cbn. intuition. }
  unfold try_except, bind at 1. unfold mt5_symbol_info at 1, call at 1.
  cbn [self world trace] in *. rewrite Hsi.
  unfold bind at 1. unfold mt5_symbol_info_tick at 1, call at 1.
  cbn [self world trace].
  destruct (symbol_info_tick mt5 (symbol p) w1) as [[[tick |] | e] w2] eqn:Htick.
  - unfold bind at 1. unfold mt5_order_calc_margin at 1, call at 1.
    cbn [self world trace].
    destruct (order_calc_margin mt5 ORDER_TYPE_BUY (symbol p) 1 (ask tick) w2)
      as [[m | e] w3] eqn:Hm.
    + unfold bind at 1, lift at 1.
      destruct (risk_lot p a bal si) as [raw | e] eqn:Hraw.
      * unfold bind at 1, margin_cap.
        destruct m as [m |].
        -- destruct (Qlt_bool 0 m) eqn:Hpos.
           ++ unfold bind at 1, mt5_account_info, call. cbn [self world trace].
              destruct (account_info mt5 w3) as [[[info |] | e] w4] eqn:Hacc.
              ** unfold bind at 1, lift at 1, py_div at 1.
                 destruct (Qeq_bool m 0) eqn:Hz.
                 { quiet_leaf. }
                 unfold ret at 1.
                 match goal with
                 | |- context [bind _ _ ?S] =>
                   destruct (open_long_place_spec a si
                               (py_min raw (margin_free info / m)) now S)
                     as (r & c' & w' & t & E & Hsub & Hlog)
                 end.
                 rewrite E. clear E.
                 eapply (open_long_handler (sized mt5 p a bal si w1)).
                 --- rewrite <- !app_assoc. reflexivity.
                 --- reflexivity.
                 --- cbn. intuition discriminate.
                 --- intros req Hin.
                     destruct (Hsub req Hin) as (lot & sl & tk & inf & H1 & H2 & ->).
                     exists lot, sl, tk, inf. split; [ | reflexivity ].
                     exists tick, w2, m, w3, raw, (py_min raw (margin_free info / m)).
                     repeat split; auto.
                     now apply (capped_by_margin mt5 w3 raw m info w4).
                 --- intros lot px sl tp Hin.
                     destruct (Hlog _ _ _ _ Hin) as (H1 & H2 & ->).
                     split; [ | reflexivity ].
                     exists tick, w2, m, w3, raw, (py_min raw (margin_free info / m)).
                     repeat split; auto.
                     now apply (capped_by_margin mt5 w3 raw m info w4).
              ** quiet_leaf.
              ** quiet_leaf.
           ++ unfold ret at 1.
              match goal with
              | |- context [bind _ _ ?S] =>
                destruct (open_long_place_spec a si raw now S)
                  as (r & c' & w' & t & E & Hsub & Hlog)
              end.
              rewrite E. clear E.
              eapply (open_long_handler (sized mt5 p a bal si w1)).
              ** rewrite <- !app_assoc. reflexivity.
              ** reflexivity.
              ** cbn. intuition discriminate.
              ** intros req Hin.
                 destruct (Hsub req Hin) as (lot & sl & tk & inf & H1 & H2 & ->).
                 exists lot, sl, tk, inf. split; [ | reflexivity ].
                 exists tick, w2, m, w3, raw, raw.
                 repeat split; auto.
                 now apply capped_by_risk.
              ** intros lot px sl tp Hin.
                 destruct (Hlog _ _ _ _ Hin) as (H1 & H2 & ->).
                 split; [ | reflexivity ].
                 exists tick, w2, m, w3, raw, raw.
                 repeat split; auto.
                 now apply capped_by_risk.
        -- quiet_leaf.
      * quiet_leaf.
    + quiet_leaf.
  - quiet_leaf.
  - quiet_leaf.
Qed.


(** Whatever the terminal does, [_open_long] returns normally and
    leaves the recorded minute alone. *)
Lemma open_long_total (d : Lines) (price bal : Q) (now : Z) (s : Sys W) :
  exists c w t,
    _open_long mt5 p d price bal now s
    = (Ok tt, {| self := {| position_count := c;
                            last_signal_minute := last_signal_minute (self s) |};
                 world := w; trace := trace s ++ t |}).
Proof.
  destruct (atr d) as [a | | |] eqn:Ha.
  - destruct (symbol_info mt5 (symbol p) (world s)) as [[[si |] | e] w1] eqn:Hsi.
    + destruct (open_long_spec d price bal now s a si w1 Ha Hsi)
        as (c & w & t & E & _).
      eauto.
    + destruct s as [[c lsm] w tr]. unfold _open_long. rewrite Ha.
      cbn [math_isfinite negb orb le0]. destruct (Qle_bool a 0).
      * exists c, w, []. unfold ret. now rewrite app_nil_r.
      * unfold try_except, bind, mt5_symbol_info, call.
        cbn [self world trace] in *. rewrite Hsi.
        unfold raise, log. cbn. do 3 eexists. rewrite <- !app_assoc. reflexivity.
    + destruct s as [[c lsm] w tr]. unfold _open_long. rewrite Ha.
      cbn [math_isfinite negb orb le0]. destruct (Qle_bool a 0).
      * exists c, w, []. unfold ret. now rewrite app_nil_r.
      * unfold try_except, bind, mt5_symbol_info, call.
        cbn [self world trace] in *. rewrite Hsi.
        unfold raise, log. cbn. do 3 eexists. rewrite <- !app_assoc. reflexivity.
  - destruct s as [[c lsm] w tr]. unfold _open_long. rewrite Ha.
    exists c, w, []. unfold ret. cbn. now rewrite app_nil_r.
  - destruct s as [[c lsm] w tr]. unfold _open_long. rewrite Ha.
    exists c, w, []. unfold ret. cbn. now rewrite app_nil_r.
  - destruct s as [[c lsm] w tr]. unfold _open_long. rewrite Ha.
    exists c, w, []. unfold ret. cbn. now rewrite app_nil_r.
Qed.

Lemma confirmed_nonneg (t : list Event) : 0 <= confirmed t.
Proof.
  induction t as [| [c | req r | m] t IH]; simpl; try lia.
  destruct (done r); lia.
Qed.

Lemma settle_add (j k c : Z) :
  0 <= j -> 0 <= k -> settle k (settle j c) = settle (j + k) c.
Proof.
  intros Hj Hk. unfold settle.
  destruct (Z.eqb_spec j 0), (Z.eqb_spec k 0), (Z.eqb_spec (j + k) 0); lia.
Qed.

(** A call of [_send_order] counts as confirmed exactly when the
    result it returns carries the done code. *)
Lemma sent_confirmed sym lot typ sl tp c res t :
  sent sym lot typ sl tp c res t ->
  confirmed t = if done (Ok res) then 1 else 0.
Proof.
  intros H. destruct H; simpl; try reflexivity.
  destruct res as [res |]; simpl; [ destruct (retcode res =? _) | ]; reflexivity.
Qed.

Lemma sent_some sym lot typ sl tp c res t :
  sent sym lot typ sl tp c (Some res) t ->
  exists tick info, submitted t = [build_request sym lot typ sl tp c tick info].
Proof.
  intros H. inversion H; subst. simpl. eauto.
Qed.

Lemma sent_none sym lot typ sl tp c t :
  sent sym lot typ sl tp c None t ->
  submitted t = [] \/
  exists tick info, submitted t = [build_request sym lot typ sl tp c tick info].
Proof.
  intros H. inversion H; subst; simpl; eauto.
Qed.

(** The loop of [_close_all]: the orders sent are the closing orders
    of a prefix [shut] of the positions, one each and in order; the
    counter goes down once per confirmed order; the loop either ends
    normally, with every position served, or stops at the first
    [_send_order] that returned [None]. *)
Lemma close_positions_spec (reason : string) (pos : list TradePosition) :
  forall s : Sys W,
  exists r w t shut rest,
    close_positions mt5 p reason pos s
    = (r, {| self := {| position_count :=
                          settle (confirmed t) (position_count (self s));
                        last_signal_minute := last_signal_minute (self s) |};
             world := w; trace := trace s ++ t |})
    /\ pos = shut ++ rest
    /\ Forall2 (closing (symbol p) reason) shut (submitted t)
    /\ (r = Ok tt /\ rest = [] \/ r = Raise AttributeError).
Proof.
  induction pos as [| q pos IH]; intros [[c lsm] w tr].
  - exists (Ok tt), w, [], [], []. unfold close_positions, ret.
    rewrite app_nil_r. cbn. repeat split; auto.
  - cbn [close_positions]. unfold bind at 1.
    destruct (send_order_spec (symbol p) (pos_volume q) (opposing (pos_type q))
                None None None reason
                {| self := {| position_count := c; last_signal_minute := lsm |};
                   world := w; trace := tr |})
      as (res & w1 & t1 & E & Hsent).
    rewrite E. clear E. cbn [self world trace position_count last_signal_minute].
    pose proof (sent_confirmed _ _ _ _ _ _ _ _ Hsent) as Hconf.
    destruct res as [res |].
    + destruct (sent_some _ _ _ _ _ _ _ _ Hsent) as (tick & info & Hsub).
      simpl in Hconf. unfold bind at 1.
      destruct (retcode res =? TRADE_RETCODE_DONE) eqn:Hdone.
      * unfold bind, get_self, set_position_count, log.
        cbn [self world trace position_count last_signal_minute].
        match goal with
        | |- context [close_positions _ _ _ _ ?S] =>
          destruct (IH S) as (r & w2 & t2 & shut & rest & E & Hpos & Hall & Hr)
        end.
        rewrite E. clear E.
        cbn [self world trace position_count last_signal_minute].
        exists r, w2, (t1 ++ [EvLog (Closed reason (pos_profit q))] ++ t2),
          (q :: shut), rest.
        split; [ | split; [ | split ] ].
        -- rewrite !confirmed_app, Hconf. cbn [confirmed].
           rewrite <- settle_add by (try lia; apply confirmed_nonneg).
           rewrite <- !app_assoc. reflexivity.
        -- now rewrite Hpos.
        -- rewrite !submitted_app, Hsub. cbn.
           constructor; [ now exists tick, info | exact Hall ].
        -- exact Hr.
      * unfold log. cbn [self world trace position_count last_signal_minute].
        match goal with
        | |- context [close_positions _ _ _ _ ?S] =>
          destruct (IH S) as (r & w2 & t2 & shut & rest & E & Hpos & Hall & Hr)
        end.
        rewrite E. clear E.
        cbn [self world trace position_count last_signal_minute].
        exists r, w2, (t1 ++ [EvLog (Close_failed (res_comment res))] ++ t2),
          (q :: shut), rest.
        split; [ | split; [ | split ] ].
        -- rewrite !confirmed_app, Hconf. cbn [confirmed].
           rewrite <- !app_assoc. reflexivity.
        -- now rewrite Hpos.
        -- rewrite !submitted_app, Hsub. cbn.
           constructor; [ now exists tick, info | exact Hall ].
        -- exact Hr.
    + simpl in Hconf. unfold raise.
      destruct (sent_none _ _ _ _ _ _ _ Hsent) as [Hsub | (tick & info & Hsub)].
      * exists (Raise AttributeError), w1, t1, [], (q :: pos).
        rewrite Hconf, Hsub. cbn. repeat split; auto.
      * exists (Raise AttributeError), w1, t1, [q], pos.
        rewrite Hconf, Hsub. cbn. repeat split; auto.
        constructor; [ now exists tick, info | constructor ].
Qed.


(** [_close_all] once the terminal has reported the positions. *)
Lemma close_all_spec (reason : string) (s : Sys W)
    (pos : list TradePosition) (w1 : W) :
  positions_get mt5 (symbol p) (world s) = (Ok (Some pos), w1) ->
  exists r w t shut rest,
    _close_all mt5 p reason s
    = (r, {| self := {| position_count :=
                          settle (confirmed t) (position_count (self s));
                        last_signal_minute := last_signal_minute (self s) |};
             world := w;
             trace := trace s ++ EvCall (positions_get_call (symbol p)) :: t |})
    /\ pos = shut ++ rest
    /\ Forall2 (closing (symbol p) reason) shut (submitted t)
    /\ (r = Ok tt /\ rest = [] \/ r = Raise AttributeError).
Proof.
  intros Hpos. destruct s as [[c lsm] w tr].
  unfold _close_all, bind, mt5_positions_get, call.
  cbn [self world trace] in *. rewrite Hpos.
  destruct pos as [| q pos].
  - exists (Ok tt), w1, [], [], []. unfold ret. cbn. repeat split; auto.
  - destruct (close_positions_spec reason (q :: pos)
                {| self := {| position_count := c; last_signal_minute := lsm |};
                   world := w1;
                   trace := tr ++ [EvCall (positions_get_call (symbol p))] |})
      as (r & w2 & t & shut & rest & E & H1 & H2 & H3).
    rewrite E. cbn [self world trace position_count last_signal_minute].
    exists r, w2, t, shut, rest. rewrite <- app_assoc. repeat split; auto.
Qed.

(** Whatever the terminal does, [_close_all] leaves the recorded
    minute alone. *)
Lemma close_all_keeps_minute (reason : string) (s : Sys W) :
  exists r c w t,
    _close_all mt5 p reason s
    = (r, {| self := {| position_count := c;
                        last_signal_minute := last_signal_minute (self s) |};
             world := w; trace := trace s ++ t |}).
Proof.
  destruct (positions_get mt5 (symbol p) (world s)) as [[[pos |] | e] w1] eqn:Hpos.
  - destruct (close_all_spec reason s pos w1 Hpos)
      as (r & w & t & shut & rest & E & _).
    eauto.
  - destruct s as [[c lsm] w tr].
    unfold _close_all, bind, mt5_positions_get, call.
    cbn [self world trace] in *. rewrite Hpos. unfold ret. eauto.
  - destruct s as [[c lsm] w tr].
    unfold _close_all, bind, mt5_positions_get, call.
    cbn [self world trace] in *. rewrite Hpos. eauto.
Qed.

(** A cycle whose minute is the recorded one does nothing at all. *)
Lemma next_debounced (d : Lines) (s : Sys W) :
  last_signal_minute (self s) = Some (minute_of (datetime d)) ->
  next mt5 p d s = (Ok tt, s).
Proof.
  intros H. unfold next, bind, get_self. rewrite H.
  unfold same_minute. now rewrite Z.eqb_refl.
Qed.

(** A cycle that decides and returns has recorded its minute. *)
Lemma next_records_minute (d : Lines) (s s1 : Sys W) (u : unit) :
  decides mt5 p d s ->
  next mt5 p d s = (Ok u, s1) ->
  last_signal_minute (self s1) = Some (minute_of (datetime d)).
Proof.
  intros (Hmin & Hlen & (info & w1 & Hacc) & Hsig).
  unfold next, bind at 1, get_self at 1. rewrite Hmin, Hlen.
  unfold bind at 1, mt5_account_info, call. rewrite Hacc.
  unfold bind at 1, get_self at 1. cbn [self world trace].
  destruct (gt0 (crossover d) && (position_count (self s) <? max_positions p)).
  - unfold bind.
    match goal with
    | |- context [_open_long _ _ _ _ _ _ ?S] =>
      destruct (open_long_total d (close d) (balance info) (datetime d) S)
        as (c & w & t & E)
    end.
    rewrite E. unfold set_last_signal_minute. cbn. intros [= _ <-]. reflexivity.
  - simpl in Hsig. rewrite Hsig. unfold bind.
    match goal with
    | |- context [_close_all _ _ _ ?S] =>
      destruct (close_all_keeps_minute "DeathCross" S) as (r & c & w & t & E)
    end.
    rewrite E. destruct r as [[] | e]; [ | discriminate ].
    unfold set_last_signal_minute. cbn. intros [= _ <-]. reflexivity.
Qed.

(** A run of items of the recorded minute does nothing at all. *)
Lemma run_debounced (m : Z) (ds : list Lines) :
  forall s : Sys W,
    last_signal_minute (self s) = Some m ->
    Forall (fun d => minute_of (datetime d) = m) ds ->
    run mt5 p ds s = (Ok tt, s).
Proof.
  induction ds as [| d ds IH]; intros s Hs Hall.
  - reflexivity.
  - inversion Hall as [| ? ? Hd Hds]; subst.
    cbn [run]. unfold bind. rewrite next_debounced by exact Hs.
    now apply IH.
Qed.

End EngineFacts.

(** ** Sizing *)



(** The numbers of the scenario: stop distance 4, risk amount 200, raw
    volume 0.5; with 50 of free margin at 200 a lot the volume that
    enters the clamp is 0.25, and so is the volume of the order. *)
Example raw_volume_scenario :
  (2 * stop_atr_mult defaults == 4)%Q /\
  (10000 * risk_pct defaults == 200)%Q /\
  (exists raw, risk_lot defaults 2 10000 xauusd = Ok raw /\ (raw == 1 # 2)%Q) /\
  (exists cap,
      fst (margin_cap (healthy tight_account xauusd []) (1 # 2) (Some 200%Q) start)
      = Ok cap /\ (cap == 1 # 4)%Q) /\
  (exists req,
      submitted (trace (snd (next (healthy tight_account xauusd []) defaults
                                  golden_cross start))) = [req] /\
      (req_volume req == 1 # 4)%Q) /\
  (exists req,
      submitted (trace (snd (next (healthy account xauusd []) defaults
                                  golden_cross start))) = [req] /\
      (req_volume req == 1 # 2)%Q).
Proof.
  split; [ reflexivity | ]. split; [ reflexivity | ].
  split; [ eexists; split; reflexivity | ].
  split; [ eexists; split; reflexivity | ].
  split; eexists; split; reflexivity.
Qed.

(** C2 fails.  The symbol trades in steps of 0.001 from 0.001 lots up:
    the minimum is below the maximum and the step is positive.  The
    risk volume is 0.002; the clamp and the floor keep it, and the
    rounding to two decimals makes it 0.  The order goes out with
    volume 0, below the minimum. *)
Theorem open_long_volume_below_minimum :
  (volume_min fine_lots <= volume_max fine_lots)%Q /\
  (0 < volume_step fine_lots)%Q /\
  exists req,
    submitted (trace (snd (next (healthy small_account fine_lots []) defaults
                                wide_cross start))) = [req] /\
    (req_volume req == 0)%Q /\
    ~ (volume_min fine_lots <= req_volume req)%Q.
Proof.
  split; [ discriminate | ]. split; [ reflexivity | ].
  eexists. split; [ reflexivity | ]. split; [ reflexivity | ].
  intros H. now apply H.
Qed.

(** ** Stop and target *)




(** ** Warm-up *)




(** ** Invalid volatility *)

(** C6, as the code has it.  With an ATR that is not finite or not
    positive, [_open_long] returns at once: no request is built, no
    query made, nothing changes.  A cycle that decides to open then
    consists of the account query and the record of its minute. *)
Theorem invalid_atr_opens_nothing
    {W : Type} (mt5 : Broker W) (p : Params) (d : Lines) (s : Sys W) :
  negb (math_isfinite (atr d)) || le0 (atr d) = true ->
  (forall price bal now, _open_long mt5 p d price bal now s = (Ok tt, s)) /\
  (forall (info : AccountInfo) (w1 : W),
      same_minute (minute_of (datetime d)) (last_signal_minute (self s)) = false ->
      (len_sma_slow d <? slow p) = false ->
      account_info mt5 (world s) = (Ok (Some info), w1) ->
      gt0 (crossover d) && (position_count (self s) <? max_positions p) = true ->
      next mt5 p d s
      = (Ok tt, {| self := {| position_count := position_count (self s);
                              last_signal_minute := Some (minute_of (datetime d)) |};
                   world := w1;
                   trace := trace s ++ [EvCall account_info_call] |})).
Proof.
  intros Hatr. split.
  - intros price bal now. unfold _open_long. now rewrite Hatr.
  - intros info w1 Hmin Hlen Hacc Hopen.
    unfold next, bind at 1, get_self at 1. rewrite Hmin, Hlen.
    unfold bind at 1, mt5_account_info, call. rewrite Hacc.
    unfold bind at 1, get_self at 1. cbn [self world trace]. rewrite Hopen.
    unfold bind, _open_long. rewrite Hatr. reflexivity.
Qed.

(** The witness: a golden cross on an ATR of 0. *)
Lemma invalid_atr_opens_nothing_witness :
  negb (math_isfinite (atr flat_cross)) || le0 (atr flat_cross) = true /\
  _open_long (healthy account xauusd []) defaults flat_cross 2000 10000 600 start
  = (Ok tt, start) /\
  next (healthy account xauusd []) defaults flat_cross start
  = (Ok tt, {| self := {| position_count := 0; last_signal_minute := Some 600 |};
               world := tt; trace := [EvCall account_info_call] |}).
Proof.
  destruct (invalid_atr_opens_nothing (healthy account xauusd []) defaults flat_cross
              start eq_refl) as [Hopen Hnext].
  split; [ reflexivity | ]. split.
  - apply Hopen.
  - apply (Hnext account tt); reflexivity.
Defined.

(** C6 as stated fails.  A death cross does not read the ATR: with the
    ATR line at NaN the cycle still builds and sends the closing
    order. *)
Lemma close_all_ignores_atr :
  math_isfinite (atr blind_death_cross) = false /\
  submitted
    (trace (snd (next (healthy account xauusd [long_half]) defaults
                      blind_death_cross holding)))
  = [sell_half].
Proof. split; reflexivity. Qed.

(** ** Closing *)

(** C9.  A cycle that decides to close while the terminal reports no
    position (an empty sequence or [None]) makes its two queries and
    records its minute; it sends no order and leaves the position
    counter as it was, whatever it was. *)
Theorem close_all_without_positions
    {W : Type} (mt5 : Broker W) (p : Params) (d : Lines) (s : Sys W)
    (info : AccountInfo) (w1 w2 : W) (pos : option (list TradePosition)) :
  same_minute (minute_of (datetime d)) (last_signal_minute (self s)) = false ->
  (len_sma_slow d <? slow p) = false ->
  account_info mt5 (world s) = (Ok (Some info), w1) ->
  gt0 (crossover d) && (position_count (self s) <? max_positions p) = false ->
  lt0 (crossover d) = true ->
  positions_get mt5 (symbol p) w1 = (Ok pos, w2) ->
  pos = None \/ pos = Some [] ->
  let t := [EvCall account_info_call; EvCall (positions_get_call (symbol p))] in
  next mt5 p d s
  = (Ok tt, {| self := {| position_count := position_count (self s);
                          last_signal_minute := Some (minute_of (datetime d)) |};
               world := w2; trace := trace s ++ t |})
  /\ submitted t = [].
Proof.
  intros Hmin Hlen Hacc Hopen Hclose Hpos Hnone t. split; [ | reflexivity ].
  unfold next, bind at 1, get_self at 1. rewrite Hmin, Hlen.
  unfold bind at 1, mt5_account_info, call. rewrite Hacc.
  unfold bind at 1, get_self at 1. cbn [self world trace].
  rewrite Hopen, Hclose.
  unfold bind at 1, _close_all, bind at 1, mt5_positions_get, call.
  cbn [self world trace]. rewrite Hpos.
  destruct Hnone as [-> | ->]; unfold ret, set_last_signal_minute; cbn;
    now rewrite <- app_assoc.
Qed.

(** The witness: the counter says 1, the terminal reports nothing. *)
Lemma close_all_without_positions_witness :
  same_minute (minute_of (datetime death_cross)) (last_signal_minute (self holding))
  = false /\
  (len_sma_slow death_cross <? slow defaults) = false /\
  account_info (healthy account xauusd []) (world holding) = (Ok (Some account), tt) /\
  gt0 (crossover death_cross)
  && (position_count (self holding) <? max_positions defaults) = false /\
  lt0 (crossover death_cross) = true /\
  positions_get (healthy account xauusd []) (symbol defaults) tt = (Ok (Some []), tt) /\
  (let t := [EvCall account_info_call; EvCall (positions_get_call (symbol defaults))] in
   next (healthy account xauusd []) defaults death_cross holding
   = (Ok tt, {| self := {| position_count := position_count (self holding);
                           last_signal_minute := Some (minute_of (datetime death_cross)) |};
                world := tt; trace := trace holding ++ t |})
   /\ submitted t = []).
Proof.
  repeat (split; [ reflexivity | ]).
  apply (close_all_without_positions (healthy account xauusd []) defaults death_cross
           holding account tt tt (Some [])); try reflexivity.
  now right.
Defined.

(** C4, as the code has it.  When the terminal has reported the
    positions and [_close_all] runs to its end, it has sent exactly
    one order per reported position, in order, each the opposing
    market order of that position's volume; the counter has gone down
    by one, not below 0, for each order the terminal confirmed as
    done and for no other. *)
Theorem close_all_orders
    {W : Type} (mt5 : Broker W) (p : Params) (reason : string) (s s' : Sys W)
    (pos : list TradePosition) (w1 : W) :
  positions_get mt5 (symbol p) (world s) = (Ok (Some pos), w1) ->
  _close_all mt5 p reason s = (Ok tt, s') ->
  exists t,
    trace s' = trace s ++ EvCall (positions_get_call (symbol p)) :: t /\
    Forall2 (closing (symbol p) reason) pos (submitted t) /\
    position_count (self s') = settle (confirmed t) (position_count (self s)) /\
    (0 <= position_count (self s) -> 0 <= position_count (self s')).
Proof.
  intros Hpos Hrun.
  destruct (close_all_spec mt5 p reason s pos w1 Hpos)
    as (r & w & t & shut & rest & E & Hsplit & Hall & Hr).
  rewrite E in Hrun. injection Hrun as -> <-.
  destruct Hr as [[_ ->] | Hr]; [ | discriminate ].
  rewrite app_nil_r in Hsplit. subst shut.
  exists t. cbn [self world trace position_count].
  repeat split; auto.
  intros Hc. unfold settle. destruct (confirmed t =? 0); lia.
Qed.

(** The scenario: the counter at 1, one long position of 0.5 lots, a
    terminal that fills. *)
Lemma close_all_orders_witness :
  positions_get (healthy account xauusd [long_half]) (symbol defaults) (world holding)
  = (Ok (Some [long_half]), tt) /\
  _close_all (healthy account xauusd [long_half]) defaults "DeathCross" holding
  = (Ok tt, {| self := {| position_count := 0; last_signal_minute := Some 600 |};
               world := tt;
               trace := [EvCall (positions_get_call "XAUUSD");
                         EvCall (symbol_info_tick_call "XAUUSD");
                         EvCall (symbol_info_call "XAUUSD");
                         EvOrder sell_half (filled sell_half);
                         EvLog (Closed "DeathCross" 12)] |}) /\
  exists t,
    [EvCall (positions_get_call "XAUUSD");
     EvCall (symbol_info_tick_call "XAUUSD");
     EvCall (symbol_info_call "XAUUSD");
     EvOrder sell_half (filled sell_half);
     EvLog (Closed "DeathCross" 12)]
    = trace holding ++ EvCall (positions_get_call (symbol defaults)) :: t /\
    Forall2 (closing (symbol defaults) "DeathCross") [long_half] (submitted t) /\
    0 = settle (confirmed t) (position_count (self holding)) /\
    (0 <= position_count (self holding) -> 0 <= 0).
Proof.
  split; [ reflexivity | split; [ reflexivity | ] ].
  exact (close_all_orders (healthy account xauusd [long_half]) defaults "DeathCross"
           holding _ [long_half] tt eq_refl eq_refl).
Defined.

(** The scenario at the level of the cycle: one opposing sell of 0.5
    lots, and the counter at 0 once it is filled. *)
Example close_all_scenario :
  let s' := snd (next (healthy account xauusd [long_half]) defaults death_cross holding) in
  submitted (trace s') = [sell_half] /\
  req_type sell_half = ORDER_TYPE_SELL /\
  req_volume sell_half = 1 # 2 /\
  position_count (self s') = 0.
Proof. repeat split. Qed.

(** C4 as stated fails.  The terminal reports one position but has no
    quote: the close-all sends no order at all. *)
Lemma close_all_without_quote :
  positions_get no_quote (symbol defaults) tt = (Ok (Some [long_half]), tt) /\
  submitted (trace (snd (next no_quote defaults death_cross holding))) = [].
Proof. split; reflexivity. Qed.

(** ** Exceptions *)

(** C1 fails on the close path.  [_send_order] turns an exception of
    [order_send] into [None], and [_close_all] then reads [retcode]
    off that [None]; an exception of [positions_get] meets no handler
    at all.  Either way the exception leaves [next] and ends the
    loop. *)
Theorem close_all_lets_exceptions_out :
  fst (next send_raises defaults death_cross holding) = Raise AttributeError /\
  fst (next positions_raise defaults death_cross holding) = Raise (BrokerError 10) /\
  fst (run send_raises defaults [death_cross; death_cross] holding)
  = Raise AttributeError.
Proof. repeat split. Qed.

(** ** One attempt per minute *)

(** C3.  In a chronological run, let a cycle reach a decision, to open
    or to close.  If it returns, however the execution went, every
    later cycle up to and including any cycle of the same minute does
    nothing: no query, no order, no line, no change of state.  If it
    does not return, the exception ends the loop and no later cycle
    runs. *)
Theorem one_attempt_per_minute
    {W : Type} (mt5 : Broker W) (p : Params)
    (d1 d2 : Lines) (between : list Lines) (s : Sys W) :
  chronological (d1 :: between ++ [d2]) ->
  minute_of (datetime d1) = minute_of (datetime d2) ->
  decides mt5 p d1 s ->
  match next mt5 p d1 s with
  | (Ok _, s1) => run mt5 p (between ++ [d2]) s1 = (Ok tt, s1)
  | (Raise e, s1) => run mt5 p (d1 :: between ++ [d2]) s = (Raise e, s1)
  end.
Proof.
  intros Hchron Hmin Hdec.
  destruct (next mt5 p d1 s) as [[u | e] s1] eqn:Hnext.
  - apply (run_debounced mt5 p (minute_of (datetime d1))).
    + exact (next_records_minute mt5 p d1 s s1 u Hdec Hnext).
    + now apply same_bucket_between.
  - cbn [run]. unfold bind. now rewrite Hnext.
Qed.

(** The witness: a golden cross at 600 that the terminal turns down, an
    item without a cross at 615 and a death cross at 659, all of one
    minute. *)
Lemma one_attempt_per_minute_witness :
  chronological (golden_cross :: [same_minute_quiet] ++ [same_minute_death_cross]) /\
  minute_of (datetime golden_cross) = minute_of (datetime same_minute_death_cross) /\
  decides (turns_down [long_half]) defaults golden_cross start /\
  match next (turns_down [long_half]) defaults golden_cross start with
  | (Ok _, s1) =>
    run (turns_down [long_half]) defaults
        ([same_minute_quiet] ++ [same_minute_death_cross]) s1 = (Ok tt, s1)
  | (Raise e, s1) =>
    run (turns_down [long_half]) defaults
        (golden_cross :: [same_minute_quiet] ++ [same_minute_death_cross]) start
    = (Raise e, s1)
  end.
Proof.
  assert (H1 : chronological
                 (golden_cross :: [same_minute_quiet] ++ [same_minute_death_cross])).
  { unfold chronological. repeat constructor; simpl; lia. }
  assert (H2 : minute_of (datetime golden_cross)
               = minute_of (datetime same_minute_death_cross)) by reflexivity.
  assert (H3 : decides (turns_down [long_half]) defaults golden_cross start).
  { repeat split. exists account, tt. reflexivity. }
  split; [ exact H1 | split; [ exact H2 | split; [ exact H3 | ] ] ].
  exact (one_attempt_per_minute (turns_down [long_half]) defaults golden_cross
           same_minute_death_cross [same_minute_quiet] start H1 H2 H3).
Defined.

End StrategyFacts.


(** * The feed at work: passes of the data thread and loads *)

Module FeedLoopFacts.
Import Feed.

(** *** Capacity *)

Lemma poll_within_capacity (p : Params) (q : Poll) (s : State) :
  within_capacity s -> within_capacity (poll p q s).
Proof.
  unfold within_capacity, poll, _fetch_tick_data, _fetch_bar_data. intros H.
  destruct (tick_mode p).
  - destruct (poll_tick q) as [tick |]; [ | exact H ].
    destruct (tick_time tick <=? _last_tick_time s); [ exact H | ].
    now apply FeedFacts.length_append.
  - destruct (poll_rates q) as [rates |]; [ | exact H ].
    destruct (rev rates) as [| latest older]; [ exact H | ].
    destruct (time latest <=? _last_bar_time s); [ exact H | ].
    now apply FeedFacts.length_append.
Qed.

Lemma data_thread_within_capacity (p : Params) (polls : list Poll) :
  forall s, within_capacity s -> within_capacity (_data_thread p polls s).
Proof.
  unfold _data_thread.
  induction polls as [| q polls IH]; intros s H; [ exact H | ].
  simpl. apply IH. now apply poll_within_capacity.
Qed.

Lemma load_within_capacity (p : Params) (fuel : nat) :
  forall waits s,
    within_capacity s -> within_capacity (snd (_load p fuel waits s)).
Proof.
  induction fuel as [| fuel IH]; intros waits s H.
  - simpl. destruct (_data_queue s) as [| bar rest] eqn:E; simpl; [ exact H | ].
    unfold within_capacity in *. simpl. rewrite E in H. simpl in H. lia.
  - simpl. destruct (_data_queue s) as [| bar rest] eqn:E; simpl.
    + pose proof (data_thread_within_capacity p (hd [] waits) s H) as H'.
      destruct (_data_ready (_data_thread p (hd [] waits) s)); [ | exact H' ].
      apply IH. exact H'.
    + unfold within_capacity in *. simpl. rewrite E in H. simpl in H. lia.
Qed.

Lemma session_within_capacity (p : Params) (ops : list Op) :
  forall delivered s,
    within_capacity s -> within_capacity (snd (session p ops delivered s)).
Proof.
  induction ops as [| [q | fuel waits] ops IH]; intros delivered s H.
  - exact H.
  - simpl. apply IH. now apply poll_within_capacity.
  - simpl. pose proof (load_within_capacity p fuel waits s H) as H'.
    destruct (_load p fuel waits s) as [[bar | |] s']; simpl in H'; now apply IH.
Qed.

(** X1.  Whatever history the terminal hands over at start and whatever
    passes of the data thread and loads follow, in any order, the buffer
    never holds more than [maxlen] = 10000 bars. *)
Theorem buffer_never_exceeds_capacity
    (p : Params) (hist : option (list Rate)) (ops : list Op) :
  Z.of_nat (List.length (_data_queue (snd (session p ops [] (__init__ p hist)))))
  <= maxlen.
Proof.
  assert (H : within_capacity (snd (session p ops [] (__init__ p hist)))).
  { apply session_within_capacity. rewrite FeedFacts.init_state.
    unfold within_capacity, preloaded. simpl.
    destruct (historical_days p <=? 0); [ simpl; lia | ].
    destruct hist as [rates |]; [ apply FeedFacts.length_newest | simpl; lia ]. }
  unfold within_capacity in H. unfold maxlen in *. lia.
Qed.

(** *** Order of the live items *)

Lemma sorted_without (l1 l2 : list Z) (x : Z) :
  StronglySorted Z.lt (l1 ++ x :: l2) -> StronglySorted Z.lt (l1 ++ l2).
Proof.
  induction l1 as [| a l1 IH]; simpl; intros H.
  - now apply StronglySorted_inv in H.
  - apply StronglySorted_inv in H as [Hs Ha]. constructor; [ now apply IH | ].
    rewrite Forall_forall in *. intros y Hy. apply Ha.
    apply in_app_or in Hy as [Hy | Hy]; apply in_or_app; [ now left | right; now right ].
Qed.

Lemma sorted_with_newer (l : list Z) (x : Z) :
  StronglySorted Z.lt l -> Forall (fun t => t < x) l ->
  StronglySorted Z.lt (l ++ [x]).
Proof.
  induction l as [| a l IH]; simpl; intros Hs Hx.
  - repeat constructor.
  - apply StronglySorted_inv in Hs as [Hs Ha].
    inversion Hx as [| ? ? Hax Hlx]; subst.
    constructor; [ now apply IH | ].
    rewrite Forall_forall in *. intros y Hy.
    apply in_app_or in Hy as [Hy | [<- | []]]; [ now apply Ha | exact Hax ].
Qed.

(** Accepting a bar newer than the watermark keeps the order, whether
    the buffer had room or dropped its oldest bar. *)
Lemma accept_in_order (delivered q : list Bar) (b : Bar) (wm : Z) :
  StronglySorted Z.lt (map bar_datetime (delivered ++ q)) ->
  Forall (fun t => 0 < t <= wm) (map bar_datetime (delivered ++ q)) ->
  0 <= wm < bar_datetime b ->
  StronglySorted Z.lt (map bar_datetime (delivered ++ append q b)) /\
  Forall (fun t => 0 < t <= bar_datetime b)
         (map bar_datetime (delivered ++ append q b)).
Proof.
  intros Hs Hf Hb.
  assert (Hstep : forall q' : list Bar,
             StronglySorted Z.lt (map bar_datetime (delivered ++ q')) ->
             Forall (fun t => 0 < t <= wm) (map bar_datetime (delivered ++ q')) ->
             StronglySorted Z.lt (map bar_datetime (delivered ++ q' ++ [b])) /\
             Forall (fun t => 0 < t <= bar_datetime b)
                    (map bar_datetime (delivered ++ q' ++ [b]))).
  { intros q' Hs' Hf'. rewrite app_assoc, map_app. simpl. split.
    - apply sorted_with_newer; [ exact Hs' | ].
      eapply Forall_impl; [ | exact Hf' ]. simpl. intros t Ht. lia.
    - apply Forall_app. split.
      + eapply Forall_impl; [ | exact Hf' ]. simpl. intros t Ht. lia.
      + constructor; [ lia | constructor ]. }
  unfold append. destruct (Z.of_nat (List.length q) <? maxlen); [ now apply Hstep | ].
  destruct q as [| a q']; [ now apply Hstep | ].
  simpl tl. apply Hstep.
  - rewrite map_app in *. simpl in Hs. now apply sorted_without in Hs.
  - rewrite map_app in *. simpl in Hf. apply Forall_app in Hf as [Hd Hq].
    apply Forall_app. split; [ exact Hd | ]. now inversion Hq.
Qed.

Lemma poll_in_order (p : Params) (q : Poll) (delivered : list Bar) (s : State) :
  in_order p delivered s -> in_order p delivered (poll p q s).
Proof.
  unfold in_order, timestamps, watermark, poll, _fetch_tick_data, _fetch_bar_data.
  intros (Hs & Hf & Hw).
  destruct (tick_mode p).
  - destruct (poll_tick q) as [tick |]; [ | auto ].
    destruct (Z.leb_spec (tick_time tick) (_last_tick_time s)); [ auto | ].
    cbn [_data_queue _last_tick_time _last_bar_time].
    destruct (accept_in_order delivered (_data_queue s) (bar_of_tick tick)
                (_last_tick_time s) Hs Hf) as [Hs' Hf']; [ simpl; lia | ].
    repeat split; [ exact Hs' | exact Hf' | lia ].
  - destruct (poll_rates q) as [rates |]; [ | auto ].
    destruct (rev rates) as [| latest older]; [ auto | ].
    destruct (Z.leb_spec (time latest) (_last_bar_time s)); [ auto | ].
    cbn [_data_queue _last_tick_time _last_bar_time].
    destruct (accept_in_order delivered (_data_queue s) (bar_of_rate latest)
                (_last_bar_time s) Hs Hf) as [Hs' Hf']; [ simpl; lia | ].
    repeat split; [ exact Hs' | exact Hf' | lia ].
Qed.

Lemma data_thread_in_order (p : Params) (polls : list Poll) (delivered : list Bar) :
  forall s, in_order p delivered s -> in_order p delivered (_data_thread p polls s).
Proof.
  unfold _data_thread.
  induction polls as [| q polls IH]; intros s H; [ exact H | ].
  simpl. apply IH. now apply poll_in_order.
Qed.

Lemma clear_ready_in_order (p : Params) (delivered : list Bar) (s : State) :
  in_order p delivered s -> in_order p delivered (clear_ready s).
Proof. unfold in_order, timestamps, watermark, clear_ready. simpl. auto. Qed.

(** A load keeps the order, the delivered bar counted as the newest of
    the delivered ones. *)
Lemma load_in_order (p : Params) (fuel : nat) :
  forall waits delivered s,
    in_order p delivered s ->
    match _load p fuel waits s with
    | (Delivered bar, s') => in_order p (delivered ++ [bar]) s'
    | (_, s') => in_order p delivered s'
    end.
Proof.
  assert (Hpop : forall delivered s bar rest,
             _data_queue s = bar :: rest ->
             in_order p delivered s ->
             in_order p (delivered ++ [bar])
               {| _data_queue := rest;
                  _last_tick_time := _last_tick_time s;
                  _last_bar_time := _last_bar_time s;
                  _data_ready := _data_ready s |}).
  { intros delivered s bar rest E. unfold in_order, timestamps, watermark. simpl.
    rewrite E, <- app_assoc. simpl. auto. }
  induction fuel as [| fuel IH]; intros waits delivered s H; simpl.
  - destruct (_data_queue s) as [| bar rest] eqn:E; [ exact H | now apply Hpop ].
  - destruct (_data_queue s) as [| bar rest] eqn:E; [ | now apply Hpop ].
    pose proof (data_thread_in_order p (hd [] waits) delivered s H) as H'.
    destruct (_data_ready (_data_thread p (hd [] waits) s)); [ | exact H' ].
    apply IH. now apply clear_ready_in_order.
Qed.

Lemma session_in_order (p : Params) (ops : list Op) :
  forall delivered s,
    in_order p delivered s ->
    in_order p (fst (session p ops delivered s)) (snd (session p ops delivered s)).
Proof.
  induction ops as [| [q | fuel waits] ops IH]; intros delivered s H.
  - exact H.
  - simpl. apply IH. now apply poll_in_order.
  - simpl. pose proof (load_in_order p fuel waits delivered s H) as H'.
    destruct (_load p fuel waits s) as [[bar | |] s']; now apply IH.
Qed.

(** X2.  A feed that starts without a preload ([historical_days <= 0])
    hands on its items in order: after any passes of the data thread and
    loads, the bars delivered so far followed by the bars still buffered
    have strictly increasing, positive timestamps, none beyond the
    watermark of the feed's mode. *)
Theorem live_items_in_order
    (p : Params) (hist : option (list Rate)) (ops : list Op) :
  historical_days p <= 0 ->
  let run := session p ops [] (__init__ p hist) in
  StronglySorted Z.lt (timestamps (fst run) (snd run)) /\
  Forall (fun t => 0 < t <= watermark p (snd run)) (timestamps (fst run) (snd run)).
Proof.
  intros Hdays run.
  assert (H : in_order p (fst run) (snd run)).
  { apply session_in_order. rewrite FeedFacts.init_state.
    unfold in_order, timestamps, watermark, preloaded. simpl.
    destruct (Z.leb_spec (historical_days p) 0); [ | lia ].
    simpl. repeat split; try constructor. destruct (tick_mode p); lia. }
  destruct H as (Hs & Hf & _). now split.
Qed.

(** The witness: two ticks arrive, the first of them twice; one load
    in between. *)
Lemma live_items_in_order_witness :
  historical_days live <= 0 /\
  let run :=
    session live
      [Produce (finds tick_600); Produce (finds tick_600); Consume 2 [];
       Produce (finds tick_615)] [] (__init__ live (Some [bar_1140; bar_1200])) in
  StronglySorted Z.lt (timestamps (fst run) (snd run)) /\
  Forall (fun t => 0 < t <= watermark live (snd run)) (timestamps (fst run) (snd run)).
Proof.
  split; [ discriminate | ].
  apply (live_items_in_order live (Some [bar_1140; bar_1200])
           [Produce (finds tick_600); Produce (finds tick_600); Consume 2 [];
            Produce (finds tick_615)]).
  discriminate.
Defined.

(** *** Passes *)

(** X3.  A pass that meets the answer of the pass before it changes
    nothing: the same tick, or the same newest row, is buffered once. *)
Theorem poll_twice_is_poll_once (p : Params) (q : Poll) (s : State) :
  poll p q (poll p q s) = poll p q s.
Proof.
  unfold poll, _fetch_tick_data, _fetch_bar_data.
  destruct (tick_mode p).
  - destruct (poll_tick q) as [tick |]; [ | reflexivity ].
    destruct (Z.leb_spec (tick_time tick) (_last_tick_time s)) as [Hle | Hgt].
    + destruct (Z.leb_spec (tick_time tick) (_last_tick_time s)); [ reflexivity | lia ].
    + cbn [_last_tick_time]. now rewrite Z.leb_refl.
  - destruct (poll_rates q) as [rates |]; [ | reflexivity ].
    destruct (rev rates) as [| latest older]; [ reflexivity | ].
    destruct (Z.leb_spec (time latest) (_last_bar_time s)) as [Hle | Hgt].
    + destruct (Z.leb_spec (time latest) (_last_bar_time s)); [ reflexivity | lia ].
    + cbn [_last_bar_time]. now rewrite Z.leb_refl.
Qed.

(** *** Loads *)

(** X4.  With the data thread idle, as many loads as the buffer holds
    bars deliver exactly these bars, oldest first, and leave the buffer
    empty; nothing else of the feed changes.  No load of them has to
    wait, so this holds for any fuel. *)
Theorem loads_deliver_in_arrival_order (p : Params) (fuel : nat) (s : State) :
  forall delivered : list Bar,
    session p (repeat (Consume fuel []) (List.length (_data_queue s))) delivered s
    = (delivered ++ _data_queue s,
       {| _data_queue := [];
          _last_tick_time := _last_tick_time s;
          _last_bar_time := _last_bar_time s;
          _data_ready := _data_ready s |}).
Proof.
  destruct s as [q lt lb ready]. cbn [_data_queue _last_tick_time _last_bar_time _data_ready].
  induction q as [| bar q IH]; intros delivered.
  - simpl. now rewrite app_nil_r.
  - cbn [List.length repeat session].
    replace (_load p fuel []
               {| _data_queue := bar :: q; _last_tick_time := lt;
                  _last_bar_time := lb; _data_ready := ready |})
      with (Delivered bar,
            {| _data_queue := q; _last_tick_time := lt;
               _last_bar_time := lb; _data_ready := ready |})
      by (destruct fuel; reflexivity).
    rewrite IH, <- app_assoc. reflexivity.
Qed.

(** An empty buffer and an idle data thread: the second round, if there
    is one, finds the event cleared. *)
Lemma load_idle (p : Params) (fuel : nat) (s : State) :
  _data_queue s = [] ->
  _load p (S (S fuel)) [] s = (NoData, clear_ready s).
Proof.
  destruct s as [q lt lb ready]. simpl. intros ->.
  destruct ready; reflexivity.
Qed.

(** X5.  On an empty buffer with the data thread idle, [_load] returns
    [None] after at most one retry: it has cleared the event if it was
    set and changed nothing else. *)
Theorem load_times_out (p : Params) (fuel : nat) (s : State) :
  _data_queue s = [] ->
  _load p (S (S fuel)) [] s = (NoData, clear_ready s) /\
  _data_queue (clear_ready s) = [] /\
  _last_tick_time (clear_ready s) = _last_tick_time s /\
  _last_bar_time (clear_ready s) = _last_bar_time s /\
  _data_ready (clear_ready s) = false.
Proof.
  intros H. split; [ now apply load_idle | ]. now repeat split.
Qed.

Lemma load_times_out_witness :
  _data_queue fresh = [] /\
  _load live 2 [] fresh = (NoData, clear_ready fresh) /\
  _data_queue (clear_ready fresh) = [] /\
  _last_tick_time (clear_ready fresh) = _last_tick_time fresh /\
  _last_bar_time (clear_ready fresh) = _last_bar_time fresh /\
  _data_ready (clear_ready fresh) = false.
Proof.
  split; [ reflexivity | ].
  apply (load_times_out live 0 fresh). reflexivity.
Defined.

(** X6.  [_load] returns: with one unit of fuel for each wait in which
    the data thread does something, and two more, the recursion ends
    with a bar or with [None]. *)
Theorem load_returns (p : Params) (waits : list (list Poll)) :
  forall (fuel : nat) (s : State),
    (List.length waits + 2 <= fuel)%nat ->
    fst (_load p fuel waits s) <> Unfinished.
Proof.
  induction waits as [| w waits IH]; intros fuel s Hfuel.
  - destruct fuel as [| [| fuel]]; try (simpl in Hfuel; lia).
    destruct (_data_queue s) as [| bar rest] eqn:E.
    + now rewrite load_idle.
    + simpl. rewrite E. discriminate.
  - destruct fuel as [| fuel]; [ simpl in Hfuel; lia | ].
    simpl. destruct (_data_queue s) as [| bar rest]; [ | discriminate ].
    destruct (_data_ready (_data_thread p w s)); [ | discriminate ].
    apply IH. simpl in Hfuel. lia.
Qed.

Lemma load_returns_witness :
  (List.length [[finds_nothing]; [finds tick_600]] + 2 <= 4)%nat /\
  fst (_load live 4 [[finds_nothing]; [finds tick_600]] fresh) <> Unfinished.
Proof.
  split; [ simpl; lia | ].
  apply (load_returns live [[finds_nothing]; [finds tick_600]] 4 fresh).
  simpl. lia.
Defined.

(** X7.  A load that finds the buffer empty is served by what the data
    thread accepts while it waits: a tick newer than the watermark is
    delivered by that very load, as the bar of its bid, and the buffer
    is empty again. *)
Theorem load_wakes_on_tick
    (p : Params) (fuel : nat) (waits : list (list Poll)) (s : State)
    (q : Poll) (tick : Tick) :
  tick_mode p = true ->
  _data_queue s = [] ->
  poll_tick q = Some tick ->
  _last_tick_time s < tick_time tick ->
  _load p (S fuel) ([q] :: waits) s
  = (Delivered (bar_of_tick tick),
     {| _data_queue := [];
        _last_tick_time := tick_time tick;
        _last_bar_time := _last_bar_time s;
        _data_ready := false |}).
Proof.
  intros Hmode Hq Htick Hnew. destruct s as [qu lt lb ready]. simpl in *. subst qu.
  unfold poll, _fetch_tick_data. rewrite Hmode, Htick. simpl.
  destruct (Z.leb_spec (tick_time tick) lt); [ lia | ].
  simpl. destruct fuel; reflexivity.
Qed.

Lemma load_wakes_on_tick_witness :
  tick_mode live = true /\
  _data_queue fresh = [] /\
  poll_tick (finds tick_600) = Some tick_600 /\
  _last_tick_time fresh < tick_time tick_600 /\
  _load live 1 ([finds tick_600] :: []) fresh
  = (Delivered (bar_of_tick tick_600),
     {| _data_queue := [];
        _last_tick_time := tick_time tick_600;
        _last_bar_time := _last_bar_time fresh;
        _data_ready := false |}).
Proof.
  repeat (split; [ reflexivity | ]).
  apply (load_wakes_on_tick live 0 [] fresh (finds tick_600) tick_600); reflexivity.
Defined.

End FeedLoopFacts.

(** * The strategy at work: what every cycle keeps *)

Module CycleFacts.
Import Strategy.

(** *** Counting orders *)

Lemma confirmed_le_submitted (t : list Event) :
  0 <= confirmed t <= Z.of_nat (List.length (submitted t)).
Proof.
  induction t as [| [c | req r | m] t IH]; simpl; try lia.
  destruct (done r); lia.
Qed.

Lemma quiet_confirmed (t : list Event) : submitted t = [] -> confirmed t = 0.
Proof.
  intros H. pose proof (confirmed_le_submitted t) as Hc. rewrite H in Hc.
  simpl in Hc. lia.
Qed.

Section Cycle.

Context {W : Type}.
Variable mt5 : Broker W.
Variable p : Params.

Lemma opened_quiet (c0 : Z) (t : list Event) :
  submitted t = [] -> opened (symbol p) c0 c0 t.
Proof.
  intros H. unfold opened. rewrite (quiet_confirmed t H), H. simpl.
  repeat split; [ lia | lia | constructor ].
Qed.

Lemma opened_wrap (c0 c : Z) (pre t post : list Event) :
  submitted pre = [] -> submitted post = [] ->
  opened (symbol p) c0 c t -> opened (symbol p) c0 c (pre ++ t ++ post).
Proof.
  intros Hpre Hpost (Hc & Hn & Hs). unfold opened.
  rewrite !StrategyFacts.confirmed_app, !StrategyFacts.submitted_app.
  rewrite (quiet_confirmed pre Hpre), (quiet_confirmed post Hpost), Hpre, Hpost.
  simpl. rewrite app_nil_r. repeat split; [ lia | exact Hn | exact Hs ].
Qed.

Ltac trace_eq :=
  cbn; unfold log, ret, raise; cbn;
  rewrite <- ?app_assoc; cbn; rewrite ?app_nil_r; reflexivity.

(** A branch of [_open_long] that ends without an order. *)
Ltac quiet_branch :=
  unfold log, ret, raise;
  cbn [self world trace position_count last_signal_minute];
  do 3 eexists;
  (split; [ rewrite <- ?app_assoc; reflexivity | ]);
  apply opened_quiet; reflexivity.

Lemma open_long_submit_opened (lot : Q) (sl : Z) (tp : Q) (now : Z) (s : Sys W) :
  exists r c w t,
    open_long_submit mt5 p lot sl tp now s
    = (r, {| self := {| position_count := c;
                        last_signal_minute := last_signal_minute (self s) |};
             world := w; trace := trace s ++ t |})
    /\ opened (symbol p) (position_count (self s)) c t.
Proof.
  destruct s as [[c lsm] w tr]. unfold open_long_submit, bind at 1.
  destruct (StrategyFacts.send_order_spec mt5 (symbol p) lot ORDER_TYPE_BUY (Some sl)
              (Some tp) (Some now) ""
              {| self := {| position_count := c; last_signal_minute := lsm |};
                 world := w; trace := tr |})
    as (res & w' & t & E & Hsent).
  rewrite E. cbn [self world trace position_count last_signal_minute].
  pose proof (StrategyFacts.sent_confirmed _ _ _ _ _ _ _ _ Hsent) as Hconf.
  assert (Hshape : (List.length (submitted t) <= 1)%nat /\
                   Forall (opening (symbol p)) (submitted t)).
  { destruct res as [res |].
    - destruct (StrategyFacts.sent_some _ _ _ _ _ _ _ _ Hsent) as (tk & inf & ->).
      split; [ simpl; lia | ]. constructor; [ | constructor ].
      now exists lot, sl, tp, tk, inf.
    - destruct (StrategyFacts.sent_none _ _ _ _ _ _ _ Hsent) as [-> | (tk & inf & ->)].
      + split; [ simpl; lia | constructor ].
      + split; [ simpl; lia | ]. constructor; [ | constructor ].
        now exists lot, sl, tp, tk, inf. }
  destruct Hshape as [Hlen Hall].
  destruct res as [res |].
  - simpl in Hconf. destruct (retcode res =? TRADE_RETCODE_DONE).
    + exists (Ok tt), (c + 1), w', ([] ++ t ++ [EvLog (Open_long lot (res_price res) sl tp)]).
      split; [ trace_eq | ]. apply opened_wrap; try reflexivity.
      unfold opened. repeat split; [ lia | exact Hlen | exact Hall ].
    + exists (Ok tt), c, w', ([] ++ t ++ [EvLog (Open_failed (res_comment res))]).
      split; [ trace_eq | ]. apply opened_wrap; try reflexivity.
      unfold opened. repeat split; [ lia | exact Hlen | exact Hall ].
  - simpl in Hconf. exists (Raise AttributeError), c, w', t.
    split; [ reflexivity | ].
    unfold opened. repeat split; [ lia | exact Hlen | exact Hall ].
Qed.

Lemma open_long_place_opened (a : Q) (si : SymbolInfo) (cap : Q) (now : Z)
    (s : Sys W) :
  exists r c w t,
    bind (lift (step_lot si cap))
      (fun lot =>
         bind (lift (stop_points p a si))
           (fun sl_pts =>
              open_long_submit mt5 p lot sl_pts (take_profit_points p sl_pts) now)) s
    = (r, {| self := {| position_count := c;
                        last_signal_minute := last_signal_minute (self s) |};
             world := w; trace := trace s ++ t |})
    /\ opened (symbol p) (position_count (self s)) c t.
Proof.
  unfold bind at 1, lift at 1.
  destruct (step_lot si cap) as [lot | e].
  - unfold bind at 1, lift at 1.
    destruct (stop_points p a si) as [sl | e].
    + apply open_long_submit_opened.
    + destruct s as [[c lsm] w tr]. exists (Raise e), c, w, [].
      rewrite app_nil_r. split; [ reflexivity | now apply opened_quiet ].
  - destruct s as [[c lsm] w tr]. exists (Raise e), c, w, [].
    rewrite app_nil_r. split; [ reflexivity | now apply opened_quiet ].
Qed.

(** The [try] block ends with outcome [r]; the handler adds its line. *)
Lemma open_long_settled (r : Res unit) (c0 c : Z) (lsm : option Z) (w : W)
    (tr tr0 pre t : list Event) :
  tr0 = tr ++ pre ->
  submitted pre = [] ->
  opened (symbol p) c0 c t ->
  exists c' w' t',
    match r with
    | Ok u =>
      (Ok u, {| self := {| position_count := c; last_signal_minute := lsm |};
                world := w; trace := tr0 ++ t |})
    | Raise e =>
      log (Open_error e)
        {| self := {| position_count := c; last_signal_minute := lsm |};
           world := w; trace := tr0 ++ t |}
    end
    = (Ok tt, {| self := {| position_count := c'; last_signal_minute := lsm |};
                 world := w'; trace := tr ++ t' |})
    /\ opened (symbol p) c0 c' t'.
Proof.
  intros -> Hpre Hop. destruct r as [[] | e].
  - exists c, w, (pre ++ t ++ []). split; [ now rewrite app_nil_r, app_assoc | ].
    now apply opened_wrap.
  - exists c, w, (pre ++ t ++ [EvLog (Open_error e)]).
    split; [ unfold log; cbn; now rewrite <- !app_assoc | ].
    now apply opened_wrap.
Qed.

(** [_open_long], for every terminal. *)
Lemma open_long_opened (d : Lines) (price bal : Q) (now : Z) (s : Sys W) :
  exists c w t,
    _open_long mt5 p d price bal now s
    = (Ok tt, {| self := {| position_count := c;
                            last_signal_minute := last_signal_minute (self s) |};
                 world := w; trace := trace s ++ t |})
    /\ opened (symbol p) (position_count (self s)) c t.
Proof.
  destruct s as [[c lsm] w tr]. unfold _open_long.
  destruct (negb (math_isfinite (atr d)) || le0 (atr d)).
  { exists c, w, []. unfold ret. rewrite app_nil_r.
    split; [ reflexivity | now apply opened_quiet ]. }
  destruct (atr d) as [a | | |];
    try (exists c, w, []; unfold ret; rewrite app_nil_r;
         split; [ reflexivity | now apply opened_quiet ]).
  unfold try_except, bind at 1. unfold mt5_symbol_info at 1, call at 1.
  cbn [self world trace].
  destruct (symbol_info mt5 (symbol p) w) as [[[si |] | e] w1];
    [ | quiet_branch | quiet_branch ].
  unfold bind at 1. unfold mt5_symbol_info_tick at 1, call at 1.
  cbn [self world trace].
  destruct (symbol_info_tick mt5 (symbol p) w1) as [[[tick |] | e] w2];
    [ | quiet_branch | quiet_branch ].
  unfold bind at 1. unfold mt5_order_calc_margin at 1, call at 1.
  cbn [self world trace].
  destruct (order_calc_margin mt5 ORDER_TYPE_BUY (symbol p) 1 (ask tick) w2)
    as [[m | e] w3]; [ | quiet_branch ].
  unfold bind at 1, lift at 1.
  destruct (risk_lot p a bal si) as [raw | e]; [ | quiet_branch ].
  unfold bind at 1, margin_cap.
  destruct m as [m |]; [ | quiet_branch ].
  destruct (Qlt_bool 0 m).
  - unfold bind at 1, mt5_account_info, call. cbn [self world trace].
    destruct (account_info mt5 w3) as [[[info |] | e] w4];
      [ | quiet_branch | quiet_branch ].
    unfold bind at 1, lift at 1, py_div at 1.
    destruct (Qeq_bool m 0); [ quiet_branch | ].
    unfold ret at 1.
    match goal with
    | |- context [bind _ _ ?S] =>
      destruct (open_long_place_opened a si (py_min raw (margin_free info / m)) now S)
        as (r & c' & w' & t & E & Hop)
    end.
    rewrite E. clear E. cbn [self position_count] in Hop.
    eapply open_long_settled; [ | | exact Hop ].
    + rewrite <- !app_assoc. reflexivity.
    + reflexivity.
  - unfold ret at 1.
    match goal with
    | |- context [bind _ _ ?S] =>
      destruct (open_long_place_opened a si raw now S)
        as (r & c' & w' & t & E & Hop)
    end.
    rewrite E. clear E. cbn [self position_count] in Hop.
    eapply open_long_settled; [ | | exact Hop ].
    + rewrite <- !app_assoc. reflexivity.
    + reflexivity.
Qed.

(** [_close_all], for every terminal: the counter is settled by the
    confirmed orders, and every order closes a reported position. *)
Lemma close_all_settled (reason : string) (s : Sys W) :
  exists r w t,
    _close_all mt5 p reason s
    = (r, {| self := {| position_count :=
                          settle (confirmed t) (position_count (self s));
                        last_signal_minute := last_signal_minute (self s) |};
             world := w; trace := trace s ++ t |})
    /\ Forall (fun req => exists q, closing (symbol p) reason q req) (submitted t).
Proof.
  destruct (positions_get mt5 (symbol p) (world s)) as [[[pos |] | e] w1] eqn:Hpos.
  - destruct (StrategyFacts.close_all_spec mt5 p reason s pos w1 Hpos)
      as (r & w & t & shut & rest & E & _ & Hall & _).
    exists r, w, (EvCall (positions_get_call (symbol p)) :: t).
    split; [ exact E | ]. simpl.
    clear E. induction Hall as [| q req shut reqs Hq _ IH]; constructor; eauto.
  - destruct s as [[c lsm] w tr].
    unfold _close_all, bind, mt5_positions_get, call.
    cbn [self world trace] in *. rewrite Hpos.
    exists (Ok tt), w1, [EvCall (positions_get_call (symbol p))].
    split; [ reflexivity | constructor ].
  - destruct s as [[c lsm] w tr].
    unfold _close_all, bind, mt5_positions_get, call.
    cbn [self world trace] in *. rewrite Hpos.
    exists (Raise e), w1, [EvCall (positions_get_call (symbol p))].
    split; [ reflexivity | constructor ].
Qed.

Lemma settle_bounds (k c : Z) : 0 <= k -> 0 <= c -> 0 <= settle k c <= c.
Proof. intros Hk Hc. unfold settle. destruct (k =? 0); lia. Qed.

Lemma opening_own (req : Request) : opening (symbol p) req -> own_order (symbol p) req.
Proof.
  intros H. split; [ | now left ].
  destruct H as (lot & sl & tp & tk & inf & ->). reflexivity.
Qed.

Lemma closing_own (req : Request) :
  (exists q, closing (symbol p) "DeathCross" q req) -> own_order (symbol p) req.
Proof.
  intros H. split; [ | now right ].
  destruct H as (q & tk & inf & ->). reflexivity.
Qed.

(** One cycle, for every terminal and every outcome. *)
Lemma next_cycle (d : Lines) (s : Sys W) :
  exists r st w t,
    next mt5 p d s = (r, {| self := st; world := w; trace := trace s ++ t |})
    /\ (0 <= position_count (self s) <= max_positions p ->
        0 <= position_count st <= max_positions p)
    /\ Forall (own_order (symbol p)) (submitted t).
Proof.
  destruct s as [[c lsm] w tr].
  unfold next, bind at 1, get_self at 1.
  cbn [self world trace position_count last_signal_minute].
  destruct (same_minute (minute_of (datetime d)) lsm).
  { exists (Ok tt), {| position_count := c; last_signal_minute := lsm |}, w, [].
    unfold ret. rewrite app_nil_r.
    split; [ reflexivity | split; [ auto | constructor ] ]. }
  destruct (len_sma_slow d <? slow p).
  { exists (Ok tt), {| position_count := c; last_signal_minute := lsm |}, w, [].
    unfold ret. rewrite app_nil_r.
    split; [ reflexivity | split; [ auto | constructor ] ]. }
  unfold bind at 1, mt5_account_info, call. cbn [self world trace].
  destruct (account_info mt5 w) as [[[info |] | e] w1].
  - unfold bind at 1, get_self at 1.
    cbn [self world trace position_count last_signal_minute].
    destruct (gt0 (crossover d)); cbn [andb].
    + destruct (Z.ltb_spec c (max_positions p)) as [Hroom | Hfull].
      * unfold bind.
        match goal with
        | |- context [_open_long _ _ _ _ _ _ ?S] =>
          destruct (open_long_opened d (close d) (balance info) (datetime d) S)
            as (c' & w' & t & E & Hc & Hlen & Hall)
        end.
        rewrite E. clear E. unfold set_last_signal_minute.
        cbn [self world trace position_count last_signal_minute] in *.
        do 4 eexists. split; [ rewrite <- app_assoc; reflexivity | ].
        pose proof (confirmed_le_submitted t) as Hconf.
        split.
        -- cbn [position_count]. intros Hb. lia.
        -- simpl. eapply Forall_impl; [ | exact Hall ]. apply opening_own.
      * destruct (lt0 (crossover d)).
        -- unfold bind.
           match goal with
           | |- context [_close_all _ _ _ ?S] =>
             destruct (close_all_settled "DeathCross" S) as (r & w' & t & E & Hall)
           end.
           rewrite E. clear E.
           cbn [self world trace position_count last_signal_minute] in *.
           pose proof (confirmed_le_submitted t) as Hconf.
           assert (Hown : Forall (own_order (symbol p))
                            (submitted ([EvCall account_info_call] ++ t))).
           { simpl. eapply Forall_impl; [ | exact Hall ]. apply closing_own. }
           destruct r as [[] | e].
           ++ unfold set_last_signal_minute.
              cbn [self world trace position_count last_signal_minute].
              do 4 eexists. split; [ rewrite <- app_assoc; reflexivity | ].
              split; [ | exact Hown ].
              cbn [position_count]. intros Hb.
              pose proof (settle_bounds (confirmed t) c ltac:(lia) ltac:(lia)). lia.
           ++ do 4 eexists. split; [ rewrite <- app_assoc; reflexivity | ].
              split; [ | exact Hown ].
              cbn [position_count]. intros Hb.
              pose proof (settle_bounds (confirmed t) c ltac:(lia) ltac:(lia)). lia.
        -- unfold ret. do 4 eexists. split; [ reflexivity | ].
           split; [ auto | constructor ].
    + destruct (lt0 (crossover d)).
      * unfold bind.
        match goal with
        | |- context [_close_all _ _ _ ?S] =>
          destruct (close_all_settled "DeathCross" S) as (r & w' & t & E & Hall)
        end.
        rewrite E. clear E.
        cbn [self world trace position_count last_signal_minute] in *.
        pose proof (confirmed_le_submitted t) as Hconf.
        assert (Hown : Forall (own_order (symbol p))
                         (submitted ([EvCall account_info_call] ++ t))).
        { simpl. eapply Forall_impl; [ | exact Hall ]. apply closing_own. }
        destruct r as [[] | e].
        -- unfold set_last_signal_minute.
           cbn [self world trace position_count last_signal_minute].
           do 4 eexists. split; [ rewrite <- app_assoc; reflexivity | ].
           split; [ | exact Hown ].
           cbn [position_count]. intros Hb.
           pose proof (settle_bounds (confirmed t) c ltac:(lia) ltac:(lia)). lia.
        -- do 4 eexists. split; [ rewrite <- app_assoc; reflexivity | ].
           split; [ | exact Hown ].
           cbn [position_count]. intros Hb.
           pose proof (settle_bounds (confirmed t) c ltac:(lia) ltac:(lia)). lia.
      * unfold ret. do 4 eexists. split; [ reflexivity | ].
        split; [ auto | constructor ].
  - unfold log. cbn [self world trace]. do 4 eexists.
    split; [ rewrite <- app_assoc; reflexivity | ].
    split; [ auto | constructor ].
  - do 4 eexists. split; [ reflexivity | ].
    split; [ auto | constructor ].
Qed.

(** The loop, for every terminal and every outcome. *)
Lemma run_cycles (ds : list Lines) :
  forall s : Sys W,
  exists r st w t,
    run mt5 p ds s = (r, {| self := st; world := w; trace := trace s ++ t |})
    /\ (0 <= position_count (self s) <= max_positions p ->
        0 <= position_count st <= max_positions p)
    /\ Forall (own_order (symbol p)) (submitted t).
Proof.
  induction ds as [| d ds IH]; intros s.
  - destruct s as [st w tr]. exists (Ok tt), st, w, []. unfold run, ret.
    rewrite app_nil_r. split; [ reflexivity | split; [ auto | constructor ] ].
  - cbn [run]. unfold bind.
    destruct (next_cycle d s) as (r & st & w & t & E & Hb & Hown).
    rewrite E. destruct r as [u | e].
    + destruct (IH {| self := st; world := w; trace := trace s ++ t |})
        as (r' & st' & w' & t' & E' & Hb' & Hown').
      rewrite E'. cbn [self world trace] in *.
      exists r', st', w', (t ++ t'). split; [ now rewrite app_assoc | ].
      split; [ auto | ].
      rewrite StrategyFacts.submitted_app. apply Forall_app. now split.
    + exists (Raise e), st, w, t. split; [ reflexivity | split; assumption ].
Qed.

End Cycle.

(** *** Failures stay inside *)

(** X8.  [_send_order] never raises, whatever the terminal does: a
    missing quote, missing symbol info or an exception of any call ends
    in the return value [None].  It hands at most one request to
    [order_send], returns a result only for a request it handed over,
    and leaves the attributes of the strategy alone. *)
Theorem send_order_contains_failures
    {W : Type} (mt5 : Broker W) (sym : string) (lot : Q) (typ : OrderType)
    (sl_points : option Z) (tp_points : option Q) (now : option Z)
    (comment : string) (s : Sys W) :
  exists res w t,
    _send_order mt5 sym lot typ sl_points tp_points now comment s
    = (Ok res, {| self := self s; world := w; trace := trace s ++ t |}) /\
    (List.length (submitted t) <= 1)%nat /\
    (forall r, res = Some r ->
       exists tick info,
         submitted t = [build_request sym lot typ sl_points tp_points comment tick info]) /\
    confirmed t = (if done (Ok res) then 1 else 0).
Proof.
  destruct (StrategyFacts.send_order_spec mt5 sym lot typ sl_points tp_points now
              comment s) as (res & w & t & E & Hsent).
  exists res, w, t. split; [ exact E | ]. split; [ | split ].
  - destruct res as [r |].
    + destruct (StrategyFacts.sent_some _ _ _ _ _ _ _ _ Hsent) as (tk & inf & ->).
      simpl. lia.
    + destruct (StrategyFacts.sent_none _ _ _ _ _ _ _ Hsent) as [-> | (tk & inf & ->)];
        simpl; lia.
  - intros r ->. exact (StrategyFacts.sent_some _ _ _ _ _ _ _ _ Hsent).
  - exact (StrategyFacts.sent_confirmed _ _ _ _ _ _ _ _ Hsent).
Qed.

(** X9.  [_open_long] never raises, whatever the terminal does.  It
    submits at most one order, an opening buy on the symbol of the
    strategy; the counter goes up by one exactly when the terminal
    confirms that order as done; the recorded minute is left alone. *)
Theorem open_long_contains_failures
    {W : Type} (mt5 : Broker W) (p : Params) (d : Lines) (price bal : Q) (now : Z)
    (s : Sys W) :
  exists c w t,
    _open_long mt5 p d price bal now s
    = (Ok tt, {| self := {| position_count := c;
                            last_signal_minute := last_signal_minute (self s) |};
                 world := w; trace := trace s ++ t |}) /\
    c = position_count (self s) + confirmed t /\
    0 <= confirmed t <= 1 /\
    (List.length (submitted t) <= 1)%nat /\
    Forall (opening (symbol p)) (submitted t).
Proof.
  destruct (open_long_opened mt5 p d price bal now s) as (c & w & t & E & Hc & Hn & Hs).
  exists c, w, t. split; [ exact E | ].
  pose proof (confirmed_le_submitted t) as Hconf.
  repeat split; try assumption; lia.
Qed.

(** *** What a cycle and a run keep *)

(** X10.  The position counter stays within [0, max_positions]: if it
    is there before a run of cycles, it is there after it, whatever the
    terminal answers and also when a cycle raises. *)
Theorem position_count_stays_in_bounds
    {W : Type} (mt5 : Broker W) (p : Params) (ds : list Lines) (s : Sys W) :
  0 <= position_count (self s) <= max_positions p ->
  0 <= position_count (self (snd (run mt5 p ds s))) <= max_positions p.
Proof.
  intros H.
  destruct (run_cycles mt5 p ds s) as (r & st & w & t & E & Hb & _).
  rewrite E. simpl. now apply Hb.
Qed.

Lemma position_count_stays_in_bounds_witness :
  0 <= position_count (self start) <= max_positions defaults /\
  0 <= position_count
         (self (snd (run (healthy account xauusd [long_half]) defaults
                         [golden_cross; death_cross] start)))
    <= max_positions defaults.
Proof.
  split; [ simpl; lia | ].
  apply (position_count_stays_in_bounds (healthy account xauusd [long_half]) defaults
           [golden_cross; death_cross] start).
  simpl. lia.
Defined.


(** X12.  A cycle acts only on a decision.  A cycle that does not reach
    one (its minute is the recorded one, the slow average is not warmed
    up, the account does not answer, or there is no cross to act on)
    leaves the counter and the recorded minute as they are and submits
    nothing. *)
Theorem only_decisions_act
    {W : Type} (mt5 : Broker W) (p : Params) (d : Lines) (s : Sys W) :
  decides mt5 p d s \/
  exists r w t,
    next mt5 p d s = (r, {| self := self s; world := w; trace := trace s ++ t |}) /\
    submitted t = [].
Proof.
  destruct s as [st w tr].
  destruct (same_minute (minute_of (datetime d)) (last_signal_minute st)) eqn:Hmin.
  { right. exists (Ok tt), w, []. unfold next, bind, get_self.
    cbn [self world trace]. rewrite Hmin. unfold ret. now rewrite app_nil_r. }
  destruct (len_sma_slow d <? slow p) eqn:Hlen.
  { right. exists (Ok tt), w, []. unfold next, bind, get_self.
    cbn [self world trace]. rewrite Hmin, Hlen. unfold ret. now rewrite app_nil_r. }
  destruct (account_info mt5 w) as [[[info |] | e] w1] eqn:Hacc.
  - destruct (gt0 (crossover d) && (position_count st <? max_positions p)
              || lt0 (crossover d)) eqn:Hsig.
    + left. repeat split; try assumption. now exists info, w1.
    + right. apply orb_false_iff in Hsig as [Hopen Hclose].
      exists (Ok tt), w1, [EvCall account_info_call].
      unfold next, bind, get_self, mt5_account_info, call.
      cbn [self world trace]. rewrite Hmin, Hlen.
      cbn [self world trace]. rewrite Hacc.
      cbn [self world trace]. rewrite Hopen, Hclose. now split.
  - right. exists (Ok tt), w1,
      [EvCall account_info_call; EvLog Cannot_fetch_account_info].
    unfold next, bind, get_self, mt5_account_info, call, log.
    cbn [self world trace]. rewrite Hmin, Hlen.
    cbn [self world trace]. rewrite Hacc.
    cbn [self world trace]. rewrite <- app_assoc. now split.
  - right. exists (Raise e), w1, [EvCall account_info_call].
    unfold next, bind, get_self, mt5_account_info, call.
    cbn [self world trace]. rewrite Hmin, Hlen.
    cbn [self world trace]. rewrite Hacc. now split.
Qed.

End CycleFacts.

(** * Orders, sizes, and the live system end to end *)

Module OrderFacts.
Import Strategy.

(** *** Rounding keeps the order of prices *)

Lemma round_half_even_mono (x y : Q) :
  (x <= y)%Q -> round_half_even x <= round_half_even y.
Proof.
  intros H. unfold round_half_even.
  pose proof (Qfloor_resp_le x y H) as Hf.
  pose proof (Qfloor_le x) as Hx1. pose proof (Qlt_floor x) as Hx2.
  pose proof (Qfloor_le y) as Hy1. pose proof (Qlt_floor y) as Hy2.
  rewrite inject_Z_plus in Hx2, Hy2.
  destruct (Z.eq_dec (Qfloor x) (Qfloor y)) as [E | N].
  - rewrite <- E in *.
    destruct (Qcompare_spec (x - inject_Z (Qfloor x)) (1 # 2)) as [Cx | Cx | Cx];
      destruct (Qcompare_spec (y - inject_Z (Qfloor x)) (1 # 2)) as [Cy | Cy | Cy];
      try (destruct (Z.even (Qfloor x))); try lia; exfalso; lra.
  - assert (Qfloor x + 1 <= Qfloor y) by lia.
    destruct (Qcompare (x - inject_Z (Qfloor x)) (1 # 2));
      destruct (Qcompare (y - inject_Z (Qfloor y)) (1 # 2));
      try (destruct (Z.even (Qfloor x))); try (destruct (Z.even (Qfloor y))); lia.
Qed.

Lemma pow10_pos (n : Z) : 0 <= n -> (0 < inject_Z (10 ^ n))%Q.
Proof.
  intros H. change 0%Q with (inject_Z 0). rewrite <- Zlt_Qlt.
  apply Z.pow_pos_nonneg; lia.
Qed.

Lemma py_round_mono (x y : Q) (n : Z) :
  (x <= y)%Q -> (py_round x n <= py_round y n)%Q.
Proof.
  intros H. unfold py_round. destruct (0 <=? n) eqn:Hn.
  - apply Z.leb_le in Hn. pose proof (pow10_pos n Hn) as Hc.
    unfold Qdiv. apply Qmult_le_compat_r.
    + rewrite <- Zle_Qle. apply round_half_even_mono.
      apply Qmult_le_compat_r; [ exact H | now apply Qlt_le_weak ].
    + apply Qlt_le_weak. now apply Qinv_lt_0_compat.
  - apply Z.leb_gt in Hn. pose proof (pow10_pos (- n) ltac:(lia)) as Hc.
    apply Qmult_le_compat_r; [ | now apply Qlt_le_weak ].
    rewrite <- Zle_Qle. apply round_half_even_mono.
    unfold Qdiv. apply Qmult_le_compat_r; [ exact H | ].
    apply Qlt_le_weak. now apply Qinv_lt_0_compat.
Qed.

Lemma points_nonneg (n : Z) (pt : Q) : 0 <= n -> (0 <= pt)%Q -> (0 <= inject_Z n * pt)%Q.
Proof.
  intros Hn Hpt. apply Qmult_le_0_compat; [ | exact Hpt ].
  change 0%Q with (inject_Z 0). now rewrite <- Zle_Qle.
Qed.

(** X13.  A request brackets its price.  With a point that is not
    negative and distances that are not negative, the stop of a buy is
    at or below the order price and its target at or above it; for a
    sell it is the other way round.  The rounding to the digits of the
    symbol does not swap them. *)
Theorem request_brackets_price
    (sym : string) (lot : Q) (typ : OrderType) (sl_points : Z) (tp_points : Q)
    (comment : string) (tick : Tick) (info : SymbolInfo) :
  (0 <= point info)%Q -> 0 <= sl_points -> (0 <= tp_points)%Q ->
  let req := build_request sym lot typ (Some sl_points) (Some tp_points) comment
               tick info in
  (forall sl, req_sl req = Some sl ->
     match typ with
     | ORDER_TYPE_BUY => (sl <= req_price req)%Q
     | ORDER_TYPE_SELL => (req_price req <= sl)%Q
     end) /\
  (forall tp, req_tp req = Some tp ->
     match typ with
     | ORDER_TYPE_BUY => (req_price req <= tp)%Q
     | ORDER_TYPE_SELL => (tp <= req_price req)%Q
     end).
Proof.
  intros Hpt Hsl Htp req. subst req. unfold build_request.
  cbn [req_sl req_tp req_price].
  pose proof (points_nonneg sl_points (point info) Hsl Hpt) as Hs.
  assert (Ht : (0 <= tp_points * point info)%Q) by now apply Qmult_le_0_compat.
  set (ks := (inject_Z sl_points * point info)%Q) in *.
  set (kt := (tp_points * point info)%Q) in *.
  split.
  - intros sl. destruct (sl_points =? 0); [ discriminate | ].
    intros [= <-]. destruct typ; apply py_round_mono; lra.
  - intros tp. destruct (Qeq_bool tp_points 0); [ discriminate | ].
    intros [= <-]. destruct typ; apply py_round_mono; lra.
Qed.

(** The witness: a buy of half a lot at the quote, 400 points of stop
    and 1200 of target. *)
Lemma request_brackets_price_witness :
  (0 <= point xauusd)%Q /\ 0 <= 400 /\ (0 <= 1200)%Q /\
  let req := build_request "XAUUSD" (1 # 2) ORDER_TYPE_BUY (Some 400) (Some 1200%Q) ""
               quote xauusd in
  (forall sl, req_sl req = Some sl -> (sl <= req_price req)%Q) /\
  (forall tp, req_tp req = Some tp -> (req_price req <= tp)%Q).
Proof.
  split; [ discriminate | split; [ lia | split; [ discriminate | ] ] ].
  apply (request_brackets_price "XAUUSD" (1 # 2) ORDER_TYPE_BUY 400 1200%Q ""
           quote xauusd); [ discriminate | lia | discriminate ].
Defined.

(** *** The orders of [_open_long] *)



(** X15.  A division by zero in the sizing stays inside [_open_long].
    If the volume step, the point, or the product of stop distance and
    contract size is zero, no order goes out, the counter and the
    recorded minute stay as they are, and [_open_long] returns. *)
Theorem zero_divisor_opens_nothing
    {W : Type} (mt5 : Broker W) (p : Params) (d : Lines) (price bal : Q) (now : Z)
    (s : Sys W) (a : Q) (si : SymbolInfo) (w1 : W) :
  atr d = Fin a ->
  symbol_info mt5 (symbol p) (world s) = (Ok (Some si), w1) ->
  (volume_step si == 0)%Q \/ (point si == 0)%Q \/
  (a * stop_atr_mult p * trade_contract_size si == 0)%Q ->
  exists w t,
    _open_long mt5 p d price bal now s
    = (Ok tt, {| self := self s; world := w; trace := trace s ++ t |}) /\
    submitted t = [].
Proof.
  intros Ha Hsi Hzero.
  destruct (StrategyFacts.open_long_spec mt5 p d price bal now s a si w1 Ha Hsi)
    as (c & w & t & E & Hreq & _).
  destruct (CycleFacts.open_long_opened mt5 p d price bal now s)
    as (c' & w' & t' & E' & Hc & _).
  rewrite E in E'. injection E' as <- <- Ht. apply app_inv_head in Ht. subst t'.
  assert (Hquiet : submitted t = []).
  { destruct (submitted t) as [| req reqs]; [ reflexivity | exfalso ].
    destruct (Hreq req (or_introl eq_refl)) as (lot & sl & tick & info & Hsized & _).
    destruct Hsized
      as (tk & w2 & m & w3 & raw & cap & _ & _ & Hraw & _ & Hstep & Hstop).
    destruct Hzero as [Hz | [Hz | Hz]].
    - unfold step_lot, py_div in Hstep. apply Qeq_bool_iff in Hz.
      rewrite Hz in Hstep. discriminate.
    - unfold stop_points, py_div in Hstop. apply Qeq_bool_iff in Hz.
      rewrite Hz in Hstop. discriminate.
    - unfold risk_lot, py_div in Hraw. apply Qeq_bool_iff in Hz.
      rewrite Hz in Hraw. discriminate. }
  exists w, t. split; [ | exact Hquiet ].
  rewrite E. rewrite Hc, (CycleFacts.quiet_confirmed t Hquiet), Z.add_0_r.
  destruct s as [[c0 lsm] w0 tr]. reflexivity.
Qed.

(** The witness: the golden cross on a symbol whose contract size is
    reported as 0. *)
Lemma zero_divisor_opens_nothing_witness :
  atr golden_cross = Fin 2 /\
  symbol_info (healthy account sizeless []) (symbol defaults) (world start)
  = (Ok (Some sizeless), tt) /\
  ((volume_step sizeless == 0)%Q \/ (point sizeless == 0)%Q \/
   (2 * stop_atr_mult defaults * trade_contract_size sizeless == 0)%Q) /\
  exists w t,
    _open_long (healthy account sizeless []) defaults golden_cross 2000 10000 600 start
    = (Ok tt, {| self := self start; world := w; trace := trace start ++ t |}) /\
    submitted t = [].
Proof.
  split; [ reflexivity | split; [ reflexivity | ] ].
  assert (H : (volume_step sizeless == 0)%Q \/ (point sizeless == 0)%Q \/
              (2 * stop_atr_mult defaults * trade_contract_size sizeless == 0)%Q)
    by (right; right; reflexivity).
  split; [ exact H | ].
  exact (zero_divisor_opens_nothing (healthy account sizeless []) defaults golden_cross
           2000 10000 600 start 2 sizeless tt eq_refl eq_refl H).
Defined.

(** *** A close-all that fails *)

(** X16.  When [_close_all] raises after the terminal has reported the
    positions, the exception is the [AttributeError] of reading
    [retcode] off a [None].  By then it has sent the closing orders of
    the first positions of the report, one each and in order, and none
    for the positions after them; the counter has gone down once, not
    below 0, for each order confirmed as done; the recorded minute is
    as it was. *)
Theorem close_all_stops_at_first_failure
    {W : Type} (mt5 : Broker W) (p : Params) (reason : string) (s s' : Sys W)
    (pos : list TradePosition) (w1 : W) (e : Exn) :
  positions_get mt5 (symbol p) (world s) = (Ok (Some pos), w1) ->
  _close_all mt5 p reason s = (Raise e, s') ->
  e = AttributeError /\
  exists t shut rest,
    trace s' = trace s ++ EvCall (positions_get_call (symbol p)) :: t /\
    pos = shut ++ rest /\
    Forall2 (closing (symbol p) reason) shut (submitted t) /\
    position_count (self s') = settle (confirmed t) (position_count (self s)) /\
    (0 <= position_count (self s) ->
     0 <= position_count (self s') <= position_count (self s)) /\
    last_signal_minute (self s') = last_signal_minute (self s).
Proof.
  intros Hpos Hrun.
  destruct (StrategyFacts.close_all_spec mt5 p reason s pos w1 Hpos)
    as (r & w & t & shut & rest & E & Hsplit & Hall & Hr).
  rewrite E in Hrun. injection Hrun as -> <-.
  destruct Hr as [[Hr _] | Hr]; [ discriminate | ].
  injection Hr as ->. split; [ reflexivity | ].
  exists t, shut, rest. cbn [self world trace position_count last_signal_minute].
  repeat split; auto;
    apply CycleFacts.settle_bounds; auto; apply StrategyFacts.confirmed_nonneg.
Qed.

(** The witness: one long position, and a terminal whose [order_send]
    raises. *)
Lemma close_all_stops_at_first_failure_witness :
  positions_get send_raises (symbol defaults) (world holding)
  = (Ok (Some [long_half]), tt) /\
  exists s',
    _close_all send_raises defaults "DeathCross" holding = (Raise AttributeError, s') /\
    exists t shut rest,
      trace s' = trace holding ++ EvCall (positions_get_call (symbol defaults)) :: t /\
      [long_half] = shut ++ rest /\
      Forall2 (closing (symbol defaults) "DeathCross") shut (submitted t) /\
      position_count (self s') = settle (confirmed t) (position_count (self holding)) /\
      (0 <= position_count (self holding) ->
       0 <= position_count (self s') <= position_count (self holding)) /\
      last_signal_minute (self s') = last_signal_minute (self holding).
Proof.
  split; [ reflexivity | ].
  eexists. split; [ reflexivity | ].
  apply (close_all_stops_at_first_failure send_raises defaults "DeathCross" holding _
           [long_half] tt AttributeError eq_refl eq_refl).
Defined.

(** *** The clamp/step stage on a grid of hundredths *)






End OrderFacts.

(** * The live system *)

Module LiveFacts.
Import Strategy.

(** *** Parts of an ordered sequence *)

Lemma sorted_prefix (l1 l2 : list Z) :
  StronglySorted Z.lt (l1 ++ l2) -> StronglySorted Z.lt l1.
Proof.
  induction l1 as [| a l1 IH]; simpl; intros H; [ constructor | ].
  apply StronglySorted_inv in H as [Hs Ha]. constructor; [ now apply IH | ].
  rewrite Forall_forall in *. intros y Hy. apply Ha. apply in_or_app. now left.
Qed.

Lemma sorted_suffix (l1 l2 : list Z) :
  StronglySorted Z.lt (l1 ++ l2) -> StronglySorted Z.lt l2.
Proof.
  induction l1 as [| a l1 IH]; simpl; intros H; [ exact H | ].
  apply StronglySorted_inv in H as [Hs _]. now apply IH.
Qed.

Lemma increasing_chronological (ds : list Lines) :
  StronglySorted Z.lt (map datetime ds) -> chronological ds.
Proof.
  intros H. apply StronglySorted_Sorted.
  induction ds as [| d ds IH]; [ constructor | ].
  simpl in H. apply StronglySorted_inv in H as [Hs Hd].
  constructor; [ now apply IH | ].
  rewrite Forall_forall in *. intros y Hy.
  apply Z.lt_le_incl. apply Hd. now apply in_map.
Qed.

(** The bars a feed without a preload has delivered carry increasing
    timestamps. *)
Lemma delivered_increasing (fp : Feed.Params) (hist : option (list Feed.Rate))
    (ops : list Feed.Op) :
  Feed.historical_days fp <= 0 ->
  StronglySorted Z.lt
    (map Feed.bar_datetime (fst (Feed.session fp ops [] (Feed.__init__ fp hist)))).
Proof.
  intros Hdays.
  assert (H : Feed.in_order fp (fst (Feed.session fp ops [] (Feed.__init__ fp hist)))
                (snd (Feed.session fp ops [] (Feed.__init__ fp hist)))).
  { apply FeedLoopFacts.session_in_order. rewrite FeedFacts.init_state.
    unfold Feed.in_order, Feed.timestamps, Feed.watermark, Feed.preloaded. simpl.
    destruct (Z.leb_spec (Feed.historical_days fp) 0); [ | lia ].
    simpl. repeat split; try constructor. destruct (Feed.tick_mode fp); lia. }
  destruct H as (Hs & _). unfold Feed.timestamps in Hs. rewrite map_app in Hs.
  now apply sorted_prefix in Hs.
Qed.

(** X18.  Feed and strategy together act once a minute.  Let the feed
    start without a preload, as [run_live_trading] starts it, and let
    the cycles see the bars it delivers, in the order of delivery.  Once
    a cycle has reached a decision and returned, every later cycle up
    to and including any cycle of the same minute does nothing,
    whatever the terminal answered to the feed and to the strategy. *)
Theorem live_system_acts_once_a_minute
    {W : Type} (mt5 : Broker W) (p : Params)
    (fp : Feed.Params) (hist : option (list Feed.Rate)) (ops : list Feed.Op)
    (pre : list Lines) (d1 : Lines) (between : list Lines) (d2 : Lines)
    (post : list Lines) (s s1 : Sys W) (u : unit) :
  Feed.historical_days fp <= 0 ->
  map datetime (pre ++ (d1 :: between ++ [d2]) ++ post)
  = map Feed.bar_datetime (fst (Feed.session fp ops [] (Feed.__init__ fp hist))) ->
  minute_of (datetime d1) = minute_of (datetime d2) ->
  decides mt5 p d1 s ->
  next mt5 p d1 s = (Ok u, s1) ->
  run mt5 p (between ++ [d2]) s1 = (Ok tt, s1).
Proof.
  intros Hdays Hts Hmin Hdec Hnext.
  pose proof (delivered_increasing fp hist ops Hdays) as Hs.
  rewrite <- Hts, !map_app in Hs.
  apply sorted_suffix, sorted_prefix in Hs.
  apply increasing_chronological in Hs.
  apply (StrategyFacts.run_debounced mt5 p (minute_of (datetime d1))).
  - exact (StrategyFacts.next_records_minute mt5 p d1 s s1 u Hdec Hnext).
  - now apply StrategyFacts.same_bucket_between.
Qed.

(** The witness: the live feed finds the ticks of 600 and 615 and
    delivers both; the strategy meets a golden cross at 600, which the
    terminal turns down, and an item of the same minute at 615. *)
Lemma live_system_acts_once_a_minute_witness :
  Feed.historical_days Feed.live <= 0 /\
  map datetime ([] ++ (golden_cross :: [] ++ [same_minute_quiet]) ++ [])
  = map Feed.bar_datetime
      (fst (Feed.session Feed.live
              [Feed.Produce (Feed.finds Feed.tick_600);
               Feed.Produce (Feed.finds Feed.tick_615);
               Feed.Consume 2 []; Feed.Consume 2 []]
              [] (Feed.__init__ Feed.live None))) /\
  minute_of (datetime golden_cross) = minute_of (datetime same_minute_quiet) /\
  decides (turns_down [long_half]) defaults golden_cross start /\
  exists s1,
    next (turns_down [long_half]) defaults golden_cross start = (Ok tt, s1) /\
    run (turns_down [long_half]) defaults ([] ++ [same_minute_quiet]) s1 = (Ok tt, s1).
Proof.
  assert (H1 : Feed.historical_days Feed.live <= 0) by (simpl; lia).
  assert (H3 : decides (turns_down [long_half]) defaults golden_cross start).
  { repeat split. exists account, tt. reflexivity. }
  split; [ exact H1 | ]. split; [ reflexivity | ]. split; [ reflexivity | ].
  split; [ exact H3 | ].
  exists (snd (next (turns_down [long_half]) defaults golden_cross start)).
  split; [ reflexivity | ].
  exact (live_system_acts_once_a_minute (turns_down [long_half]) defaults Feed.live None
           [Feed.Produce (Feed.finds Feed.tick_600);
            Feed.Produce (Feed.finds Feed.tick_615);
            Feed.Consume 2 []; Feed.Consume 2 []]
           [] golden_cross [] same_minute_quiet [] start _ tt
           H1 eq_refl eq_refl H3 eq_refl).
Defined.

(** *** The open path of a cycle *)

(** X19.  A cycle that decides to open never raises.  Once the account
    has answered and the cross-over asks to open with room for a
    position, [next] returns whatever the terminal does afterwards,
    records the minute, has submitted at most one order, an opening buy
    on the symbol, has counted it once if it was confirmed, and leaves
    the counter within [max_positions]. *)
Theorem open_cycle_never_raises
    {W : Type} (mt5 : Broker W) (p : Params) (d : Lines) (s : Sys W)
    (info : AccountInfo) (w1 : W) :
  same_minute (minute_of (datetime d)) (last_signal_minute (self s)) = false ->
  (len_sma_slow d <? slow p) = false ->
  account_info mt5 (world s) = (Ok (Some info), w1) ->
  gt0 (crossover d) && (position_count (self s) <? max_positions p) = true ->
  exists c w t,
    next mt5 p d s
    = (Ok tt, {| self := {| position_count := c;
                            last_signal_minute := Some (minute_of (datetime d)) |};
                 world := w;
                 trace := trace s ++ EvCall account_info_call :: t |}) /\
    opened (symbol p) (position_count (self s)) c t /\
    c <= max_positions p.
Proof.
  intros Hmin Hlen Hacc Hsig.
  unfold next, bind at 1, get_self at 1. rewrite Hmin, Hlen.
  unfold bind at 1, mt5_account_info, call. rewrite Hacc.
  unfold bind at 1, get_self at 1. cbn [self world trace]. rewrite Hsig.
  unfold bind.
  match goal with
  | |- context [_open_long _ _ _ _ _ _ ?S] =>
    destruct (CycleFacts.open_long_opened mt5 p d (close d) (balance info)
                (datetime d) S) as (c & w & t & E & Hop)
  end.
  rewrite E. unfold set_last_signal_minute.
  cbn [self world trace position_count last_signal_minute] in *.
  exists c, w, t. rewrite <- app_assoc. split; [ reflexivity | ].
  split; [ exact Hop | ].
  destruct Hop as (Hc & Hn & _).
  apply andb_true_iff in Hsig as [_ Hroom]. apply Z.ltb_lt in Hroom.
  pose proof (CycleFacts.confirmed_le_submitted t). lia.
Qed.

(** The witness: the golden cross at a terminal that turns the order
    down. *)
Lemma open_cycle_never_raises_witness :
  same_minute (minute_of (datetime golden_cross)) (last_signal_minute (self start))
  = false /\
  (len_sma_slow golden_cross <? slow defaults) = false /\
  account_info (turns_down [long_half]) (world start) = (Ok (Some account), tt) /\
  gt0 (crossover golden_cross)
  && (position_count (self start) <? max_positions defaults) = true /\
  exists c w t,
    next (turns_down [long_half]) defaults golden_cross start
    = (Ok tt, {| self := {| position_count := c;
                            last_signal_minute :=
                              Some (minute_of (datetime golden_cross)) |};
                 world := w;
                 trace := trace start ++ EvCall account_info_call :: t |}) /\
    opened (symbol defaults) (position_count (self start)) c t /\
    c <= max_positions defaults.
Proof.
  split; [ reflexivity | ]. split; [ reflexivity | ]. split; [ reflexivity | ].
  split; [ reflexivity | ].
  exact (open_cycle_never_raises (turns_down [long_half]) defaults golden_cross start
           account tt eq_refl eq_refl eq_refl eq_refl).
Defined.

End LiveFacts.

(** * The watermarks of the feed *)

Module WatermarkFacts.
Import Feed.

Lemma ahead_refl (p : Params) (s : State) : ahead p s s.
Proof. unfold ahead. destruct (tick_mode p); repeat split; lia. Qed.

Lemma ahead_trans (p : Params) (s1 s2 s3 : State) :
  ahead p s1 s2 -> ahead p s2 s3 -> ahead p s1 s3.
Proof.
  unfold ahead. intros (H1 & H2 & H3) (H4 & H5 & H6).
  destruct (tick_mode p); repeat split; lia.
Qed.

Lemma poll_ahead (p : Params) (q : Poll) (s : State) : ahead p s (poll p q s).
Proof.
  unfold ahead, poll, _fetch_tick_data, _fetch_bar_data.
  destruct (tick_mode p).
  - destruct (poll_tick q) as [tick |]; [ | repeat split; lia ].
    destruct (Z.leb_spec (tick_time tick) (_last_tick_time s)); simpl;
      repeat split; lia.
  - destruct (poll_rates q) as [rates |]; [ | repeat split; lia ].
    destruct (rev rates) as [| latest rest]; [ repeat split; lia | ].
    destruct (Z.leb_spec (time latest) (_last_bar_time s)); simpl;
      repeat split; lia.
Qed.

Lemma data_thread_ahead (p : Params) (polls : list Poll) :
  forall s, ahead p s (_data_thread p polls s).
Proof.
  unfold _data_thread. induction polls as [| q polls IH]; intros s; simpl.
  - apply ahead_refl.
  - eapply ahead_trans; [ apply poll_ahead | apply IH ].
Qed.

Lemma load_ahead (p : Params) (fuel : nat) :
  forall waits s, ahead p s (snd (_load p fuel waits s)).
Proof.
  induction fuel as [| fuel IH]; intros waits s; simpl.
  - destruct (_data_queue s); simpl; [ apply ahead_refl | ].
    unfold ahead. simpl. destruct (tick_mode p); repeat split; lia.
  - destruct (_data_queue s) as [| bar rest] eqn:Hq; simpl.
    + pose proof (data_thread_ahead p (hd [] waits) s) as Hd.
      destruct (_data_ready (_data_thread p (hd [] waits) s)); simpl; [ | exact Hd ].
      eapply ahead_trans; [ exact Hd | ].
      eapply ahead_trans; [ | apply IH ].
      unfold ahead, clear_ready. simpl. destruct (tick_mode p); repeat split; lia.
    + unfold ahead. simpl. destruct (tick_mode p); repeat split; lia.
Qed.

Lemma session_ahead (p : Params) (ops : list Op) :
  forall delivered s, ahead p s (snd (session p ops delivered s)).
Proof.
  induction ops as [| [q | fuel waits] ops IH]; intros delivered s; simpl.
  - apply ahead_refl.
  - eapply ahead_trans; [ apply poll_ahead | apply IH ].
  - pose proof (load_ahead p fuel waits s) as Hl.
    destruct (_load p fuel waits s) as [[bar | |] s']; simpl in Hl;
      (eapply ahead_trans; [ exact Hl | apply IH ]).
Qed.

(** X20.  The watermarks only move forward.  Through any passes of the
    data thread and any loads, neither [_last_tick_time] nor
    [_last_bar_time] goes back, and the one the mode of the feed does
    not use stays where it was: a feed in tick mode never moves
    [_last_bar_time], a feed in bar mode never moves
    [_last_tick_time]. *)
Theorem watermarks_only_move_forward
    (p : Params) (ops : list Op) (delivered : list Bar) (s : State) :
  let s' := snd (session p ops delivered s) in
  _last_tick_time s <= _last_tick_time s' /\
  _last_bar_time s <= _last_bar_time s' /\
  (if tick_mode p then _last_bar_time s' = _last_bar_time s
   else _last_tick_time s' = _last_tick_time s).
Proof.
  intros s'. exact (session_ahead p ops delivered s).
Qed.

End WatermarkFacts.
